(** * Smart Todo List: a shallow embedding of the front-end logic

    The development follows the TypeScript sources:
    - [lib/api-service.ts]        (module [ApiService]),
    - [contexts/task-context.tsx] (module [TaskContext]),
    - the task manager component  (module [TaskManager]),
    - [components/quick-add-task.tsx] (module [QuickAddTask]),
    - [components/task-card.tsx] and the dashboard (modules [TaskCard], [Dashboard]).

    The scoring and analytics engine itself lives behind the HTTP API and is
    not part of these sources; the two modules [PriorityScorer] and
    [InsightAggregator] are modelled from the specification. *)

From Stdlib Require Import List ZArith NArith QArith Bool String Ascii Lia.
Import ListNotations.

Set Warnings "-register-all".

(** ** JavaScript strings and values *)

Module JS.

(** A JavaScript string is a sequence of UTF-16 code units. *)
Definition jsstring := list N.

(** String literal of the sources, for the ASCII part of a literal. *)
Fixpoint lit (s : string) : jsstring :=
  match s with
  | EmptyString => []
  | String c r => N_of_ascii c :: lit r
  end.

(** [a === b] on strings. *)
Fixpoint str_eqb (a b : jsstring) : bool :=
  match a, b with
  | [], [] => true
  | x :: a', y :: b' => (x =? y)%N && str_eqb a' b'
  | _, _ => false
  end.

(** The code units that [String.prototype.trim] strips: ECMAScript
    WhiteSpace and LineTerminator, all of them in the basic plane. *)
Definition isWhiteSpace (c : N) : bool :=
  ((9 <=? c) && (c <=? 13)          (* TAB LF VT FF CR *)
   || (c =? 32)                     (* SPACE *)
   || (c =? 160)                    (* NO-BREAK SPACE *)
   || (c =? 5760)                   (* U+1680 *)
   || ((8192 <=? c) && (c <=? 8202))  (* U+2000 .. U+200A *)
   || (c =? 8232) || (c =? 8233)    (* LINE / PARAGRAPH SEPARATOR *)
   || (c =? 8239)                   (* U+202F *)
   || (c =? 8287)                   (* U+205F *)
   || (c =? 12288)                  (* U+3000 *)
   || (c =? 65279))%N.              (* U+FEFF *)

Fixpoint trimStart (s : jsstring) : jsstring :=
  match s with
  | [] => []
  | c :: r => if isWhiteSpace c then trimStart r else s
  end.

Definition trimEnd (s : jsstring) : jsstring := rev (trimStart (rev s)).

(** [s.trim()] *)
Definition trim (s : jsstring) : jsstring := trimEnd (trimStart s).

(** A string none of whose code units is visible: empty or whitespace-only. *)
Definition blank (s : jsstring) : bool := forallb isWhiteSpace s.

(** Values that travel over the wire or sit in an [any]-typed variable:
    the JSON values, and [undefined] for a missing property.  A number
    carries the exact rational value of the double it denotes. *)
Inductive value : Type :=
| VUndefined
| VNull
| VBool (b : bool)
| VNum (q : Q)
| VStr (s : jsstring)
| VArr (items : list value)
| VObj (props : list (jsstring * value)).

Definition str_truthy (s : jsstring) : bool :=
  match s with [] => false | _ :: _ => true end.

(** ToBoolean *)
Definition truthy (v : value) : bool :=
  match v with
  | VUndefined | VNull => false
  | VBool b => b
  | VNum q => negb (Qnum q =? 0)%Z
  | VStr s => str_truthy s
  | VArr _ | VObj _ => true
  end.

(** [Array.isArray(v)] *)
Definition isArray (v : value) : bool :=
  match v with VArr _ => true | _ => false end.

(** Own property of an object literal or parsed JSON object, in the order
    the properties were written. *)
Fixpoint lookup (k : jsstring) (props : list (jsstring * value)) : value :=
  match props with
  | [] => VUndefined
  | (k', v) :: r => if str_eqb k k' then v else lookup k r
  end.

(** What a thrown exception is. *)
Inductive exn : Type :=
| FetchFailed (reason : jsstring)   (* fetch rejected: network failure *)
| HttpError (status : Z)            (* new Error(`HTTP error! status: ${status}`) *)
| JsonSyntaxError                   (* response.json() rejected *)
| TypeError                         (* property read on null or undefined *)
| RangeError.                       (* toISOString on an invalid Date *)

Inductive res (A : Type) : Type :=
| Ok (a : A)
| Throw (e : exn).
Arguments Ok {A} a.
Arguments Throw {A} e.

(** [v.k] for the property names the sources read ([results], [priority],
    [priority_score], [suggested_category], [suggested_deadline]): none of
    them is defined on the built-in prototypes, so on an array, a string, a
    number or a boolean the read gives [undefined]; on [null] and
    [undefined] it throws. *)
Definition getProp (v : value) (k : jsstring) : res value :=
  match v with
  | VUndefined | VNull => Throw TypeError
  | VObj props => Ok (lookup k props)
  | _ => Ok VUndefined
  end.

(** *** Dates *)

Definition msPerDay : Z := 24 * 60 * 60 * 1000.

(** A time value is valid when it is within 8.64e15 ms of the epoch. *)
Definition validTime (t : Z) : bool :=
  (-8640000000000000 <=? t)%Z && (t <=? 8640000000000000)%Z.

(** Year, month and day (UTC) of the day that is [z] days after
    1970-01-01, in the proleptic Gregorian calendar. *)
Definition civilFromDays (z0 : Z) : Z * Z * Z :=
  let z := (z0 + 719468)%Z in
  let era := (z / 146097)%Z in
  let doe := (z - era * 146097)%Z in
  let yoe := ((doe - doe / 1460 + doe / 36524 - doe / 146096) / 365)%Z in
  let doy := (doe - (365 * yoe + yoe / 4 - yoe / 100))%Z in
  let mp := ((5 * doy + 2) / 153)%Z in
  let d := (doy - (153 * mp + 2) / 5 + 1)%Z in
  let m := (if mp <? 10 then mp + 3 else mp - 9)%Z in
  let y := (yoe + era * 400 + (if m <=? 2 then 1 else 0))%Z in
  (y, m, d).

Definition digit (n : Z) : N := (48 + Z.to_N (n mod 10))%N.

(** The [w] low decimal digits of [n], most significant first. *)
Fixpoint digits (w : nat) (n : Z) : jsstring :=
  match w with
  | O => []
  | S w' => digits w' (n / 10) ++ [digit n]
  end.

(** The part of [toISOString()] before the ['T']: [YYYY-MM-DD], with the
    expanded year [+YYYYYY] or [-YYYYYY] outside 0..9999. *)
Definition isoDate (t : Z) : jsstring :=
  let '(y, m, d) := civilFromDays (t / msPerDay) in
  let year :=
    if ((0 <=? y) && (y <=? 9999))%Z then digits 4 y
    else (if (y <? 0)%Z then lit "-" else lit "+") ++ digits 6 (Z.abs y) in
  year ++ lit "-" ++ digits 2 m ++ lit "-" ++ digits 2 d.

(** [new Date(t).toISOString().split('T')[0]] *)
Definition toISODate (t : Z) : res jsstring :=
  if validTime t then Ok (isoDate t) else Throw RangeError.

End JS.
Import JS.


(** ** The host, the effects of a handler, and the small monad that threads them *)

Module Eff.

(** [fetch(url, config)]: the headers are always
    ['Content-Type': 'application/json'] and are left out; [body] is the
    value handed to [JSON.stringify]. *)
Record Request : Type := {
  url : jsstring;
  method : option jsstring;
  body : option value
}.

(** What [fetch] resolves to; [json] is [None] when [response.json()]
    rejects because the body is not JSON. *)
Record Response : Type := {
  ok : bool;
  status : Z;
  json : option value
}.

Inductive FetchOutcome : Type :=
| Rejected (e : exn)
| Resolved (r : Response).

(** Everything the code asks of its surroundings.  [Date_now k] is what
    the [k]-th evaluation of [Date.now()] (or [new Date()]) returns;
    [URLSearchParams_toString] and [Date_parse] are the browser's own
    (the latter gives [None] for an invalid date). *)
Record Host : Type := {
  NEXT_PUBLIC_API_URL : option jsstring;
  fetch : Request -> FetchOutcome;
  Date_now : nat -> Z;
  URLSearchParams_toString : list (jsstring * jsstring) -> jsstring;
  Date_parse : jsstring -> option Z
}.

Inductive Variant : Type := Default | Destructive.

(** A toast description: a plain string, or a template literal
    [`prefix${v}`] kept with its interpolated value. *)
Inductive Text : Type :=
| Plain (s : jsstring)
| Template (prefix : jsstring) (v : value).

Module UI.
Record Toast : Type := {
  title : jsstring;
  description : Text;
  variant : Variant
}.
End UI.

(** What a handler does that can be seen from outside the component. *)
Inductive Event : Type :=
| EFetch (r : Request)
| EConsoleError (label : jsstring) (e : exn)
| EToast (t : UI.Toast)
| EDispatchAddTask (payload : value)     (* dispatch({ type: 'ADD_TASK', payload }) *)
| EOnOpenChange (open : bool).

Section Monad.
(** The component's [useState] cells. *)
Variable St : Type.

Record World : Type := {
  comp : St;
  log : list Event;
  reads : nat          (* how many times the clock has been read *)
}.

Definition M (A : Type) : Type := Host -> World -> res A * World.

Definition ret {A : Type} (a : A) : M A := fun _ w => (Ok a, w).

Definition bind {A B : Type} (m : M A) (f : A -> M B) : M B :=
  fun h w =>
    match m h w with
    | (Ok a, w') => f a h w'
    | (Throw e, w') => (Throw e, w')
    end.

Definition throw {A : Type} (e : exn) : M A := fun _ w => (Throw e, w).

Definition liftRes {A : Type} (r : res A) : M A := fun _ w => (r, w).

(** [try { body } catch (error) { handler }] *)
Definition tryCatch {A : Type} (body : M A) (handler : exn -> M A) : M A :=
  fun h w =>
    match body h w with
    | (Throw e, w') => handler e h w'
    | r => r
    end.

Definition emit (e : Event) : M unit :=
  fun _ w => (Ok tt, {| comp := comp w; log := log w ++ [e]; reads := reads w |}).

Definition host : M Host := fun h w => (Ok h, w).

(** The state as the current render sees it. *)
Definition getState : M St := fun _ w => (Ok (comp w), w).

(** A [useState] setter, also in its functional form [set(prev => ...)]. *)
Definition setState (f : St -> St) : M unit :=
  fun _ w => (Ok tt, {| comp := f (comp w); log := log w; reads := reads w |}).

(** [Date.now()] *)
Definition now : M Z :=
  fun h w => (Ok (Date_now h (reads w)),
              {| comp := comp w; log := log w; reads := S (reads w) |}).

(** Running a handler on a fresh render. *)
Definition run {A : Type} (m : M A) (h : Host) (s : St) : res A * World :=
  m h {| comp := s; log := []; reads := 0 |}.
End Monad.

Arguments comp {St} _.
Arguments log {St} _.
Arguments reads {St} _.
Arguments ret {St A} _.
Arguments bind {St A B} _ _.
Arguments throw {St A} _.
Arguments liftRes {St A} _.
Arguments tryCatch {St A} _ _.
Arguments emit {St} _.
Arguments host {St}.
Arguments getState {St}.
Arguments setState {St} _.
Arguments now {St}.
Arguments run {St A} _ _ _.

Declare Scope eff_scope.
Delimit Scope eff_scope with eff.
Notation "x <- m ;; k" := (bind m (fun x => k))
  (at level 61, m at next level, right associativity) : eff_scope.
Notation "m ;; k" := (bind m (fun _ => k))
  (at level 61, right associativity) : eff_scope.

Definition toast {St : Type} (t : UI.Toast) : M St unit := emit (EToast t).

Definition console_error {St : Type} (label : jsstring) (e : exn) : M St unit :=
  emit (EConsoleError label e).

(** [a || b] on strings *)
Definition str_or (a b : jsstring) : jsstring := if str_truthy a then a else b.

End Eff.
Import Eff.
Open Scope eff_scope.

(** ** lib/api-service.ts *)

Module ApiService.

(** The two [RequestInit] fields the class sets. *)
Record RequestInit : Type := {
  init_method : option jsstring;
  init_body : option value
}.

Definition noOptions : RequestInit :=
  {| init_method := None; init_body := None |}.

Definition post (body : option value) : RequestInit :=
  {| init_method := Some (lit "POST"); init_body := body |}.

(** [process.env.NEXT_PUBLIC_API_URL || 'http://localhost:8000/api'] *)
Definition API_BASE_URL (h : Host) : jsstring :=
  match NEXT_PUBLIC_API_URL h with
  | Some u => str_or u (lit "http://localhost:8000/api")
  | None => lit "http://localhost:8000/api"
  end.

Section Api.
Context {St : Type}.

(** [await fetch(url, config)] *)
Definition callFetch (r : Request) : M St Response :=
  emit (EFetch r) ;;
  h <- host ;;
  match fetch h r with
  | Rejected e => throw e
  | Resolved response => ret response
  end.

Definition request (endpoint : jsstring) (options : RequestInit) : M St value :=
  h <- host ;;
  let config :=
    {| url := API_BASE_URL h ++ endpoint;
       method := init_method options;
       body := init_body options |} in
  tryCatch
    (response <- callFetch config ;;
     if negb (ok response) then throw (HttpError (status response))
     else match json response with
          | Some v => ret v
          | None => throw JsonSyntaxError
          end)
    (fun error =>
       console_error (lit "API request failed:") error ;;
       throw error).

(** [params] lists the entries of the optional argument in the order
    [Object.entries] yields them. *)
Definition getTasks (params : option (list (jsstring * option jsstring)))
  : M St value :=
  h <- host ;;
  let searchParams :=
    match params with
    | Some entries =>
        flat_map (fun '(key, value) =>
                    match value with
                    | Some v => if str_truthy v then [(key, v)] else []
                    | None => []
                    end) entries
    | None => []
    end in
  let query := URLSearchParams_toString h searchParams in
  let endpoint :=
    lit "/tasks/" ++ (if str_truthy query then lit "?" ++ query else []) in
  response <- request endpoint noOptions ;;
  paginated <- (if truthy response
                then liftRes (getProp response (lit "results"))
                else ret response) ;;
  if truthy paginated then liftRes (getProp response (lit "results"))
  else ret (if isArray response then response else VArr []).

Definition createTask (taskData : value) : M St value :=
  request (lit "/tasks/") (post (Some taskData)).

Definition getCategories : M St value :=
  response <- request (lit "/categories/") noOptions ;;
  paginated <- (if truthy response
                then liftRes (getProp response (lit "results"))
                else ret response) ;;
  if truthy paginated then liftRes (getProp response (lit "results"))
  else ret (if isArray response then response else VArr []).

Definition getContexts : M St value :=
  response <- request (lit "/contexts/") noOptions ;;
  paginated <- (if truthy response
                then liftRes (getProp response (lit "results"))
                else ret response) ;;
  if truthy paginated then liftRes (getProp response (lit "results"))
  else ret (if isArray response then response else VArr []).

Definition getAISuggestions (title description : jsstring) : M St value :=
  request (lit "/ai/suggestions/")
    (post (Some (VObj [(lit "title", VStr title);
                       (lit "description", VStr description)]))).

Definition generateInsights : M St value :=
  request (lit "/ai/generate-insights/") (post None).

Definition calculatePriority (taskData : value) : M St value :=
  request (lit "/ai/calculate-priority/")
    (post (Some (VObj [(lit "task_data", taskData)]))).

Definition getTask (id : jsstring) : M St value :=
request (lit "/tasks/" ++ id ++ lit "/") noOptions.

Definition updateTask (id : jsstring) (taskData : value) : M St value :=
request (lit "/tasks/" ++ id ++ lit "/")
  {| init_method := Some (lit "PUT"); init_body := Some taskData |}.

Definition deleteTask (id : jsstring) : M St value :=
request (lit "/tasks/" ++ id ++ lit "/")
  {| init_method := Some (lit "DELETE"); init_body := None |}.

Definition createCategory (categoryData : value) : M St value :=
request (lit "/categories/") (post (Some categoryData)).

Definition createContext (contextData : value) : M St value :=
request (lit "/contexts/") (post (Some contextData)).

Definition processContext (content sourceType : jsstring) : M St value :=
request (lit "/ai/process-context/")
  (post (Some (VObj [(lit "content", VStr content);
                     (lit "source_type", VStr sourceType)]))).

Definition getTaskStats : M St value :=
request (lit "/tasks/stats/") noOptions.
End Api.

End ApiService.

(** ** The two task-creation components *)

(** The [formData] cell both components keep. *)
Record FormData : Type := {
  title : jsstring;
  description : jsstring;
  category : jsstring;
  deadline : jsstring
}.

Definition emptyForm : FormData :=
  {| title := []; description := []; category := []; deadline := [] |}.

(** U+2728 and U+1F389 as UTF-16. *)
Definition sparkles : jsstring := [10024%N].
Definition party : jsstring := [55356%N; 57225%N].

(** The [field] argument of [applySuggestion]. *)
Inductive SuggestionField : Type :=
| category_field
| deadline_field
| description_field.

Definition fieldName (field : SuggestionField) : jsstring :=
  match field with
  | category_field => lit "category"
  | deadline_field => lit "deadline"
  | description_field => lit "description"
  end.

(** [{ ...prev, [field]: value }] *)
Definition withField (prev : FormData) (field : SuggestionField)
           (value : jsstring) : FormData :=
  match field with
  | category_field =>
      {| title := title prev; description := description prev;
         category := value; deadline := deadline prev |}
  | deadline_field =>
      {| title := title prev; description := description prev;
         category := category prev; deadline := value |}
  | description_field =>
      {| title := title prev; description := value;
         category := category prev; deadline := deadline prev |}
  end.

Module TaskManager.

Record State : Type := {
  showCreateForm : bool;
  isCreating : bool;
  isGettingSuggestions : bool;
  formData : FormData;
  aiSuggestions : value
}.

Definition initialState : State :=
  {| showCreateForm := false; isCreating := false;
     isGettingSuggestions := false; formData := emptyForm;
     aiSuggestions := VNull |}.

Definition setShowCreateForm (b : bool) : M State unit :=
  setState (fun s =>
    {| showCreateForm := b; isCreating := isCreating s;
       isGettingSuggestions := isGettingSuggestions s;
       formData := formData s; aiSuggestions := aiSuggestions s |}).

Definition setIsCreating (b : bool) : M State unit :=
  setState (fun s =>
    {| showCreateForm := showCreateForm s; isCreating := b;
       isGettingSuggestions := isGettingSuggestions s;
       formData := formData s; aiSuggestions := aiSuggestions s |}).

Definition setIsGettingSuggestions (b : bool) : M State unit :=
  setState (fun s =>
    {| showCreateForm := showCreateForm s; isCreating := isCreating s;
       isGettingSuggestions := b;
       formData := formData s; aiSuggestions := aiSuggestions s |}).

Definition setFormData (f : FormData) : M State unit :=
  setState (fun s =>
    {| showCreateForm := showCreateForm s; isCreating := isCreating s;
       isGettingSuggestions := isGettingSuggestions s;
       formData := f; aiSuggestions := aiSuggestions s |}).

Definition setAiSuggestions (v : value) : M State unit :=
  setState (fun s =>
    {| showCreateForm := showCreateForm s; isCreating := isCreating s;
       isGettingSuggestions := isGettingSuggestions s;
       formData := formData s; aiSuggestions := v |}).

Definition handleGetSuggestions : M State unit :=
  render <- getState ;;
  let formData := formData render in
  if negb (str_truthy (trim (title formData))) then
    toast {| UI.title := lit "Title Required";
             UI.description :=
               Plain (lit "Please enter a task title to get AI suggestions");
             UI.variant := Destructive |}
  else
    setIsGettingSuggestions true ;;
    tryCatch
      (suggestions <- ApiService.getAISuggestions
                        (title formData) (description formData) ;;
       setAiSuggestions suggestions ;;
       toast {| UI.title := lit "AI Suggestions Generated! " ++ sparkles;
                UI.description :=
                  Plain (lit "Smart recommendations are now available");
                UI.variant := Default |})
      (fun error =>
         console_error (lit "AI suggestions error:") error ;;
         toast {| UI.title := lit "Error";
                  UI.description := Plain (lit "Failed to get AI suggestions");
                  UI.variant := Destructive |}) ;;
    setIsGettingSuggestions false.

Definition handleCreateTask : M State unit :=
  render <- getState ;;
  let formData := formData render in
  if negb (str_truthy (trim (title formData))) then
    toast {| UI.title := lit "Title Required";
             UI.description := Plain (lit "Please enter a task title");
             UI.variant := Destructive |}
  else
    setIsCreating true ;;
    tryCatch
      (scoringDeadline <-
         (if str_truthy (deadline formData) then ret (deadline formData)
          else t <- now ;; liftRes (toISODate (t + 7 * 24 * 60 * 60 * 1000))) ;;
       let taskDataForPriority :=
         VObj [(lit "title", VStr (trim (title formData)));
               (lit "description", VStr (trim (description formData)));
               (lit "category_id",
                 VStr (str_or (category formData) (lit "Personal")));
               (lit "deadline", VStr scoringDeadline)] in
       priorityResult <- ApiService.calculatePriority taskDataForPriority ;;
       priority <- liftRes (getProp priorityResult (lit "priority")) ;;
       priority_score <- liftRes (getProp priorityResult (lit "priority_score")) ;;
       taskDeadline <-
         (if str_truthy (deadline formData) then ret (deadline formData)
          else t <- now ;; liftRes (toISODate (t + 7 * 24 * 60 * 60 * 1000))) ;;
       let taskData :=
         VObj [(lit "title", VStr (trim (title formData)));
               (lit "description", VStr (trim (description formData)));
               (lit "category_id",
                 VStr (str_or (category formData) (lit "Personal")));
               (lit "priority", priority);
               (lit "priority_score", priority_score);
               (lit "deadline", VStr taskDeadline);
               (lit "status", VStr (lit "todo"));
               (lit "ai_suggestions", aiSuggestions render)] in
       createdTask <- ApiService.createTask taskData ;;
       emit (EDispatchAddTask createdTask) ;;
       setFormData emptyForm ;;
       setAiSuggestions VNull ;;
       setShowCreateForm false ;;
       shown <- liftRes (getProp priorityResult (lit "priority")) ;;
       toast {| UI.title := lit "Task Created Successfully! " ++ party;
                UI.description :=
                  Template
                    (lit "Your new task has been added with AI priority: ")
                    shown;
                UI.variant := Default |})
      (fun error =>
         console_error (lit "Task creation error:") error ;;
         toast {| UI.title := lit "Error";
                  UI.description := Plain (lit "Failed to create task");
                  UI.variant := Destructive |}) ;;
    setIsCreating false.

Definition applySuggestion (field : SuggestionField) (value : jsstring)
  : M State unit :=
  setState (fun s =>
    {| showCreateForm := showCreateForm s; isCreating := isCreating s;
       isGettingSuggestions := isGettingSuggestions s;
       formData := withField (formData s) field value;
       aiSuggestions := aiSuggestions s |}) ;;
  toast {| UI.title := lit "Suggestion Applied";
           UI.description :=
             Plain (lit "AI suggestion has been applied to " ++ fieldName field);
           UI.variant := Default |}.

End TaskManager.

Module QuickAddTask.

(** The [open] flag is a prop; closing goes through [onOpenChange]. *)
Record State : Type := {
  isLoading : bool;
  isGettingSuggestions : bool;
  formData : FormData;
  aiSuggestions : value
}.

Definition initialState : State :=
  {| isLoading := false; isGettingSuggestions := false;
     formData := emptyForm; aiSuggestions := VNull |}.

Definition setIsLoading (b : bool) : M State unit :=
  setState (fun s =>
    {| isLoading := b; isGettingSuggestions := isGettingSuggestions s;
       formData := formData s; aiSuggestions := aiSuggestions s |}).

Definition setFormData (f : FormData) : M State unit :=
  setState (fun s =>
    {| isLoading := isLoading s; isGettingSuggestions := isGettingSuggestions s;
       formData := f; aiSuggestions := aiSuggestions s |}).

Definition setAiSuggestions (v : value) : M State unit :=
  setState (fun s =>
    {| isLoading := isLoading s; isGettingSuggestions := isGettingSuggestions s;
       formData := formData s; aiSuggestions := v |}).

Definition onOpenChange (b : bool) : M State unit := emit (EOnOpenChange b).

Definition handleSubmit : M State unit :=
  render <- getState ;;
  let formData := formData render in
  if negb (str_truthy (trim (title formData))) then
    toast {| UI.title := lit "Title Required";
             UI.description := Plain (lit "Please enter a task title");
             UI.variant := Destructive |}
  else
    setIsLoading true ;;
    tryCatch
      (scoringDeadline <-
         (if str_truthy (deadline formData) then ret (deadline formData)
          else t <- now ;; liftRes (toISODate (t + 7 * 24 * 60 * 60 * 1000))) ;;
       let taskDataForPriority :=
         VObj [(lit "title", VStr (trim (title formData)));
               (lit "description", VStr (trim (description formData)));
               (lit "category_id",
                 VStr (str_or (category formData) (lit "Personal")));
               (lit "deadline", VStr scoringDeadline)] in
       priorityResult <- ApiService.calculatePriority taskDataForPriority ;;
       priority <- liftRes (getProp priorityResult (lit "priority")) ;;
       priority_score <- liftRes (getProp priorityResult (lit "priority_score")) ;;
       taskDeadline <-
         (if str_truthy (deadline formData) then ret (deadline formData)
          else t <- now ;; liftRes (toISODate (t + 7 * 24 * 60 * 60 * 1000))) ;;
       let taskData :=
         VObj [(lit "title", VStr (trim (title formData)));
               (lit "description", VStr (trim (description formData)));
               (lit "category_id",
                 VStr (str_or (category formData) (lit "Personal")));
               (lit "priority", priority);
               (lit "priority_score", priority_score);
               (lit "deadline", VStr taskDeadline);
               (lit "status", VStr (lit "todo"));
               (lit "ai_suggestions", aiSuggestions render)] in
       createdTask <- ApiService.createTask taskData ;;
       emit (EDispatchAddTask createdTask) ;;
       setFormData emptyForm ;;
       setAiSuggestions VNull ;;
       onOpenChange false ;;
       shown <- liftRes (getProp priorityResult (lit "priority")) ;;
       toast {| UI.title := lit "Task Created! " ++ party;
                UI.description :=
                  Template
                    (lit "Your new task has been added with AI priority: ")
                    shown;
                UI.variant := Default |})
      (fun error =>
         console_error (lit "Task creation error:") error ;;
         toast {| UI.title := lit "Error";
                  UI.description := Plain (lit "Failed to create task");
                  UI.variant := Destructive |}) ;;
    setIsLoading false.

Definition applySuggestion (field : SuggestionField) (value : jsstring)
  : M State unit :=
  setState (fun s =>
    {| isLoading := isLoading s; isGettingSuggestions := isGettingSuggestions s;
       formData := withField (formData s) field value;
       aiSuggestions := aiSuggestions s |}) ;;
  toast {| UI.title := lit "Suggestion Applied";
           UI.description :=
             Plain (lit "AI suggestion has been applied to " ++ fieldName field);
           UI.variant := Default |}.

End QuickAddTask.

(** ** contexts/task-context.tsx, with the interfaces of lib/api-service.ts *)

Module TaskContext.

Inductive Priority : Type := urgent | high | medium | low.
Inductive Status : Type := todo | in_progress | completed.
Inductive SourceType : Type := email | message | note | other.
Inductive Sentiment : Type := positive | neutral | negative.

Definition status_eqb (a b : Status) : bool :=
  match a, b with
  | todo, todo | in_progress, in_progress | completed, completed => true
  | _, _ => false
  end.

Record CategoryRef : Type := {
  ref_id : jsstring;
  ref_name : jsstring;
  ref_color : jsstring
}.

Record Task : Type := {
  id : jsstring;
  title : jsstring;
  description : jsstring;
  category : option CategoryRef;
  category_id : option jsstring;
  priority : Priority;
  priority_score : Q;
  deadline : option jsstring;
  status : Status;
  ai_suggestions : option value;
  tags : list jsstring;
  created_at : jsstring;
  updated_at : jsstring;
  is_overdue : bool;
  days_until_deadline : option Q
}.

Record Category : Type := {
  cat_id : jsstring;
  cat_name : jsstring;
  cat_color : jsstring;
  usage_frequency : Q;
  cat_created_at : jsstring;
  cat_updated_at : jsstring
}.

Record ProcessedInsights : Type := {
  keywords : list jsstring;
  sentiment : Sentiment;
  urgency : Q;
  extracted_tasks : option (list jsstring)
}.

Record ContextEntry : Type := {
  ctx_id : jsstring;
  content : jsstring;
  source_type : SourceType;
  processed_insights : ProcessedInsights;
  ctx_created_at : jsstring;
  ctx_updated_at : jsstring
}.

Record TaskState : Type := {
  tasks : list Task;
  contexts : list ContextEntry;
  categories : list Category;
  loading : bool;
  error : option jsstring
}.

Inductive TaskAction : Type :=
| SET_LOADING (payload : bool)
| SET_ERROR (payload : option jsstring)
| SET_TASKS (payload : list Task)
| ADD_TASK (payload : Task)
| UPDATE_TASK (payload : Task)
| DELETE_TASK (payload : jsstring)
| SET_CONTEXTS (payload : list ContextEntry)
| ADD_CONTEXT (payload : ContextEntry)
| SET_CATEGORIES (payload : list Category).

Definition initialState : TaskState :=
  {| tasks := []; contexts := []; categories := [];
     loading := false; error := None |}.

Definition taskReducer (state : TaskState) (action : TaskAction) : TaskState :=
  match action with
  | SET_LOADING payload =>
      {| tasks := tasks state; contexts := contexts state;
         categories := categories state;
         loading := payload; error := error state |}
  | SET_ERROR payload =>
      {| tasks := tasks state; contexts := contexts state;
         categories := categories state;
         loading := loading state; error := payload |}
  | SET_TASKS payload =>
      {| tasks := payload; contexts := contexts state;
         categories := categories state;
         loading := loading state; error := error state |}
  | ADD_TASK payload =>
      {| tasks := tasks state ++ [payload]; contexts := contexts state;
         categories := categories state;
         loading := loading state; error := error state |}
  | UPDATE_TASK payload =>
      {| tasks := map (fun task =>
                         if str_eqb (id task) (id payload) then payload else task)
                      (tasks state);
         contexts := contexts state;
         categories := categories state;
         loading := loading state; error := error state |}
  | DELETE_TASK payload =>
      {| tasks := filter (fun task => negb (str_eqb (id task) payload))
                         (tasks state);
         contexts := contexts state;
         categories := categories state;
         loading := loading state; error := error state |}
  | SET_CONTEXTS payload =>
      {| tasks := tasks state; contexts := payload;
         categories := categories state;
         loading := loading state; error := error state |}
  | ADD_CONTEXT payload =>
      {| tasks := tasks state; contexts := contexts state ++ [payload];
         categories := categories state;
         loading := loading state; error := error state |}
  | SET_CATEGORIES payload =>
      {| tasks := tasks state; contexts := contexts state;
         categories := payload;
         loading := loading state; error := error state |}
  end.

End TaskContext.

(** ** The provider of contexts/task-context.tsx *)

Module TaskProvider.
Import TaskContext.

(** Runs an action of the provider inside a component whose state holds
    the provider's state, as [useTaskContext] gives access to it. *)
Definition inContext {St A : Type} (get : St -> TaskState)
           (set : TaskState -> St -> St) (m : M TaskState A) : M St A :=
  fun h w =>
    let (r, w') := m h {| comp := get (comp w); log := log w; reads := reads w |} in
    (r, {| comp := set (comp w') (comp w); log := log w'; reads := reads w' |}).

(** The [dispatch] of [useReducer(taskReducer, initialState)]. *)
Definition dispatch (action : TaskAction) : M TaskState unit :=
  setState (fun state => taskReducer state action).

Section Provider.
(** The two sides of the type that [request<Task>] asserts: the object
    [JSON.stringify] is given for a task, and a parsed body seen as a Task. *)
Variable ofTask : Task -> value.
Variable asTask : value -> Task.

Definition enhancedDispatch (action : TaskAction) : M TaskState unit :=
  match action with
  | UPDATE_TASK payload =>
      tryCatch
        (updatedTask <- ApiService.updateTask (id payload) (ofTask payload) ;;
         dispatch (UPDATE_TASK (asTask updatedTask)))
        (fun error => console_error (lit "Failed to update task:") error)
  | DELETE_TASK payload =>
      tryCatch
        (ApiService.deleteTask payload ;;
         dispatch action)
        (fun error => console_error (lit "Failed to delete task:") error)
  | _ => dispatch action
  end.
End Provider.

End TaskProvider.

(** ** components/task-card.tsx *)

Module TaskCard.
Import TaskContext.

(** [task.deadline ? new Date(task.deadline) < new Date()
                     && task.status !== 'completed' : false],
    with [today] the value of [new Date()]; an invalid date compares false. *)
Definition isOverdue (h : Host) (today : Z) (task : Task) : bool :=
  match deadline task with
  | Some d =>
      if str_truthy d then
        match Date_parse h d with
        | Some t => (t <? today)%Z && negb (status_eqb (status task) completed)
        | None => false
        end
      else false
  | None => false
  end.

(** [Math.ceil((new Date(task.deadline).getTime() - new Date().getTime())
    / (1000 * 60 * 60 * 24))], and 0 without a deadline; [None] is NaN.
    The quotient of the two integers is taken exactly: the double division
    of the source rounds to the same ceiling while the difference is below
    2^53 ms. *)
Definition daysUntilDeadline (h : Host) (today : Z) (task : Task) : option Z :=
  match deadline task with
  | Some d =>
      if str_truthy d then
        match Date_parse h d with
        | Some t => Some (- ((today - t) / (1000 * 60 * 60 * 24)))%Z
        | None => None
        end
      else Some 0%Z
  | None => Some 0%Z
  end.

Definition hasDeadline (task : Task) : bool :=
  match deadline task with
  | Some d => str_truthy d
  | None => false
  end.

Definition isDay (days : option Z) (n : Z) : bool :=
  match days with
  | Some k => (k =? n)%Z
  | None => false
  end.

(** [task.deadline && daysUntilDeadline === 0 && task.status !== 'completed'],
    the condition of the " (Today)" mark; [now2] is the second
    [new Date()] of the render, the one [daysUntilDeadline] reads. *)
Definition marksToday (h : Host) (now2 : Z) (task : Task) : bool :=
  hasDeadline task && isDay (daysUntilDeadline h now2 task) 0
  && negb (status_eqb (status task) completed).

(** The condition of the " (Tomorrow)" mark. *)
Definition marksTomorrow (h : Host) (now2 : Z) (task : Task) : bool :=
  hasDeadline task && isDay (daysUntilDeadline h now2 task) 1
  && negb (status_eqb (status task) completed).

(** [isOverdue && task.status !== 'completed'], the condition of the
    " (Overdue)" mark; [now1] is the first [new Date()] of the render. *)
Definition marksOverdue (h : Host) (now1 : Z) (task : Task) : bool :=
  isOverdue h now1 task && negb (status_eqb (status task) completed).

Section Handlers.
Variable ofTask : Task -> value.
Variable asTask : value -> Task.

(** [handleDelete] touches the provider's state only. *)
Definition handleDelete (task : Task) : M TaskState unit :=
  tryCatch
    (TaskProvider.enhancedDispatch ofTask asTask (DELETE_TASK (id task)) ;;
     toast {| UI.title := lit "Task Deleted";
              UI.description := Plain (lit "Task has been removed from your list");
              UI.variant := Destructive |})
    (fun error =>
       toast {| UI.title := lit "Delete Failed";
                UI.description := Plain (lit "Failed to delete task");
                UI.variant := Destructive |}).
End Handlers.

End TaskCard.

(** ** The dashboard component *)

Module Dashboard.
Import TaskContext.

Record Stats : Type := {
  total : nat;
  completed_count : nat;
  inProgress : nat;
  overdue : nat
}.

(** [state.tasks] is an array by its type, so the [Array.isArray] guard
    of the source keeps it. *)
Definition stats (state : TaskState) : Stats :=
  let tasks := tasks state in
  {| total := List.length tasks;
     completed_count :=
       List.length (filter (fun t => status_eqb (status t) completed) tasks);
     inProgress :=
       List.length (filter (fun t => status_eqb (status t) in_progress) tasks);
     overdue := List.length (filter (fun t => is_overdue t) tasks) |}.

End Dashboard.

(** ** The tabs of the task manager *)

Module TaskManagerTabs.
Import TaskContext.

(** Where [Array.prototype.sort] puts [x] among the already sorted [l]
    that followed it, for the comparator
    [(a, b) => b.priority_score - a.priority_score]: behind the tasks with
    a higher score, before the others.  The sort is stable. *)
Fixpoint insertByScore (x : Task) (l : list Task) : list Task :=
  match l with
  | [] => [x]
  | y :: r =>
      if Qle_bool (priority_score y) (priority_score x) then x :: l
      else y :: insertByScore x r
  end.

Definition sortByScore (l : list Task) : list Task :=
  fold_right insertByScore [] l.

Definition getTasksByStatus (state : TaskState) (wanted : Status) : list Task :=
  sortByScore (filter (fun task => status_eqb (status task) wanted) (tasks state)).

End TaskManagerTabs.

(** ** components/analytics.tsx *)

Module Analytics.
Import TaskContext.

Record PriorityBreakdown : Type := {
  urgent_tasks : nat;
  high_tasks : nat;
  medium_tasks : nat;
  low_tasks : nat
}.

Record TaskStats : Type := {
  total : nat;
  completed_tasks : nat;
  inProgress : nat;
  overdue : nat;
  priorityBreakdown : PriorityBreakdown
}.

Definition priority_eqb (a b : Priority) : bool :=
  match a, b with
  | urgent, urgent | high, high | medium, medium | low, low => true
  | _, _ => false
  end.

(** The overdue filter: a task without a deadline is passed over; for
    every other task the callback reads the clock once, the [k]-th
    reading being the first. *)
Fixpoint overdueFrom (h : Host) (k : nat) (l : list Task) : nat :=
  match l with
  | [] => 0
  | t :: r =>
      match deadline t with
      | Some d =>
          if str_truthy d then
            (if match Date_parse h d with
                | Some ms => (ms <? Date_now h k)%Z
                | None => false
                end && negb (status_eqb (status t) completed)
             then 1 else 0) + overdueFrom h (S k) r
          else overdueFrom h k r
      | None => overdueFrom h k r
      end
  end.

(** [taskStats], computed in a render that has read the clock [k] times. *)
Definition taskStats (h : Host) (k : nat) (state : TaskState) : TaskStats :=
  let count := fun p => List.length (filter p (tasks state)) in
  {| total := List.length (tasks state);
     completed_tasks := count (fun t => status_eqb (status t) completed);
     inProgress := count (fun t => status_eqb (status t) in_progress);
     overdue := overdueFrom h k (tasks state);
     priorityBreakdown :=
       {| urgent_tasks := count (fun t => priority_eqb (priority t) urgent);
          high_tasks := count (fun t => priority_eqb (priority t) high);
          medium_tasks := count (fun t => priority_eqb (priority t) medium);
          low_tasks := count (fun t => priority_eqb (priority t) low) |} |}.

End Analytics.

(** ** The context input component *)

Module ContextInput.
Import TaskContext.

Record Form : Type := {
  form_content : jsstring;
  sourceType : SourceType
}.

(** The component's own cells, and the provider's state it dispatches to. *)
Record State : Type := {
  isProcessing : bool;
  formData : Form;
  context : TaskState
}.

(** The string a source type is. *)
Definition sourceTypeName (t : SourceType) : jsstring :=
  match t with
  | email => lit "email"
  | message => lit "message"
  | note => lit "note"
  | other => lit "other"
  end.

Definition setIsProcessing (b : bool) : M State unit :=
  setState (fun s =>
    {| isProcessing := b; formData := formData s; context := context s |}).

Definition setFormData (f : Form) : M State unit :=
  setState (fun s =>
    {| isProcessing := isProcessing s; formData := f; context := context s |}).

(** U+1F9E0 as UTF-16. *)
Definition brain : jsstring := [55358%N; 56800%N].

Section Handlers.
Variable ofTask : Task -> value.
Variable asTask : value -> Task.
(** A parsed body seen as the ContextEntry that [request<ContextEntry>]
    asserts it is. *)
Variable asContextEntry : value -> ContextEntry.

Definition dispatch (action : TaskAction) : M State unit :=
  TaskProvider.inContext context
    (fun c s => {| isProcessing := isProcessing s; formData := formData s;
                   context := c |})
    (TaskProvider.enhancedDispatch ofTask asTask action).

Definition handleSubmit : M State unit :=
  render <- getState ;;
  let formData := formData render in
  if negb (str_truthy (trim (form_content formData))) then
    toast {| UI.title := lit "Content Required";
             UI.description := Plain (lit "Please enter some context content");
             UI.variant := Destructive |}
  else
    setIsProcessing true ;;
    tryCatch
      (newContext <- ApiService.createContext
                       (VObj [(lit "content", VStr (trim (form_content formData)));
                              (lit "source_type",
                                VStr (sourceTypeName (sourceType formData)))]) ;;
       dispatch (ADD_CONTEXT (asContextEntry newContext)) ;;
       setFormData {| form_content := []; sourceType := note |} ;;
       toast {| UI.title := lit "Context Added Successfully! " ++ brain;
                UI.description :=
                  Plain (lit "AI has processed your "
                         ++ sourceTypeName (sourceType formData)
                         ++ lit " and extracted insights");
                UI.variant := Default |})
      (fun error =>
         toast {| UI.title := lit "Error";
                  UI.description := Plain (lit "Failed to process context");
                  UI.variant := Destructive |}) ;;
    setIsProcessing false.
End Handlers.

End ContextInput.

(** ** The engine behind the API, from the specification *)

Module PriorityScorer.
Import TaskContext.

(** Modelled from the spec: the priority scorer that answers
    [POST /ai/calculate-priority/] is server code and not among the
    sources.  [clamp01] is the clamp of section 4.2. *)
Definition clamp01 (x : Q) : Q :=
  if Qle_bool x 0 then 0 else if Qle_bool 1 x then 1 else x.

(** Modelled from the spec: the four terms of the weighted sum of section
    4.2, each computed by the missing scorer from the request. *)
Record Terms : Type := {
  deadlineUrgency : Q;
  textUrgency : Q;
  complexity : Q;
  workloadPressure : Q
}.

(** Modelled from the spec: the missing scorer's final score, "the sum of
    the weighted terms, clamped to [0,1]" with weights 0.45, 0.30, 0.15
    and 0.10. *)
Definition finalScore (t : Terms) : Q :=
  clamp01 (0.45 * deadlineUrgency t + 0.30 * textUrgency t
           + 0.15 * complexity t + 0.10 * workloadPressure t).

(** Modelled from the spec: the missing scorer's label thresholds,
    "score >= 0.75 -> urgent; >= 0.5 -> high; >= 0.25 -> medium; else low". *)
Definition labelOf (score : Q) : Priority :=
  if Qle_bool 0.75 score then urgent
  else if Qle_bool 0.5 score then high
  else if Qle_bool 0.25 score then medium
  else low.

(** Modelled from the spec: the label and the score of the missing
    scorer's answer, [{priority, priority_score}] of section 6. *)
Record Result : Type := {
  result_priority : Priority;
  result_score : Q
}.

(** Modelled from the spec: the result the missing scorer returns, without
    its reasoning sentence. *)
Definition result (t : Terms) : Result :=
  {| result_priority := labelOf (finalScore t);
     result_score := finalScore t |}.

(** Modelled from the spec: the order of the labels of the missing
    scorer, [low] lowest, as "orders consistently" in section 3 needs it. *)
Definition rank (p : Priority) : nat :=
  match p with
  | urgent => 3
  | high => 2
  | medium => 1
  | low => 0
  end.

End PriorityScorer.

Module InsightAggregator.

(** Modelled from the spec: the aggregator that answers
    [POST /ai/generate-insights/] is server code and not among the
    sources.  This is the part of the Task of section 3 that section 4.4
    reads: dates are time values in milliseconds, and [completed_at] is the
    timestamp of the completion when the status is completed. *)
Record Task : Type := {
  status : TaskContext.Status;
  priority : TaskContext.Priority;
  category : option jsstring;
  deadline : option Z;
  completed_at : Z
}.

(** Modelled from the spec: the four sentences the missing aggregator can
    recommend, one per trigger rule of section 4.4, by what they suggest. *)
Inductive Recommendation : Type :=
| DeferNonUrgentWork
| DeadlineReviewSession
| RebalanceFocus
| BreakTasksIntoSmallerUnits.

(** Modelled from the spec: the AnalyticsSnapshot of section 3 that the
    missing aggregator returns. *)
Record AnalyticsSnapshot : Type := {
  productivity : Q;
  burnout : Q;
  focus : list jsstring;
  recommendations : list Recommendation
}.

(** Modelled from the spec: the missing aggregator's "clamp to [lo,hi]". *)
Definition clamp (lo hi x : Q) : Q :=
  if Qle_bool x lo then lo else if Qle_bool hi x then hi else x.

(** Modelled from the spec: the strict comparisons in the trigger rules of
    the missing aggregator. *)
Definition Qlt_bool (a b : Q) : bool := negb (Qle_bool b a).

(** Modelled from the spec: the sum in the numerator of the missing
    aggregator's productivity. *)
Definition sumQ (l : list Q) : Q := fold_right Qplus 0 l.

(** Modelled from the spec: "ties broken alphabetically" in the missing
    aggregator's focus list; the order is by code unit. *)
Fixpoint str_leb (a b : jsstring) : bool :=
  match a, b with
  | [], _ => true
  | _ :: _, [] => false
  | x :: a', y :: b' => (x <? y)%N || ((x =? y)%N && str_leb a' b')
  end.

(** Modelled from the spec: one more task for [name] in the missing
    aggregator's task count per category. *)
Fixpoint bump (name : jsstring) (counts : list (jsstring * nat))
  : list (jsstring * nat) :=
  match counts with
  | [] => [(name, 1%nat)]
  | (n, c) :: r =>
      if str_eqb n name then (n, S c) :: r else (n, c) :: bump name r
  end.

(** Modelled from the spec: the missing aggregator's focus order, "by task
    count, descending, ties broken alphabetically". *)
Definition before (a b : jsstring * nat) : bool :=
  (snd b <? snd a)%nat || ((snd a =? snd b)%nat && str_leb (fst a) (fst b)).

(** Modelled from the spec: insertion into a list in the missing
    aggregator's focus order. *)
Fixpoint insert (x : jsstring * nat) (l : list (jsstring * nat))
  : list (jsstring * nat) :=
  match l with
  | [] => [x]
  | y :: r => if before x y then x :: l else y :: insert x r
  end.

(** Modelled from the spec: sorting by the missing aggregator's focus
    order. *)
Definition sort (l : list (jsstring * nat)) : list (jsstring * nat) :=
  fold_right insert [] l.

Section Aggregate.
(** Modelled from the spec: the weight the missing aggregator gives a
    completion between 7 and 30 days old, which section 4.4 leaves open. *)
Variable midWeight : Q.
(** Modelled from the spec: the "now" of the missing aggregator. *)
Variable today : Z.

(** Modelled from the spec: a completed task, for the missing aggregator. *)
Definition isCompleted (t : Task) : bool :=
  TaskContext.status_eqb (status t) TaskContext.completed.

(** Modelled from the spec: a task labelled urgent, for the missing
    aggregator's urgentCount. *)
Definition isUrgent (t : Task) : bool :=
  match priority t with TaskContext.urgent => true | _ => false end.

(** Modelled from the spec: the derived overdue flag of section 3, for the
    missing aggregator's overdueCount. *)
Definition isOverdue (t : Task) : bool :=
  match deadline t with
  | Some d => (d <? today)%Z && negb (isCompleted t)
  | None => false
  end.

(** Modelled from the spec: the missing aggregator's recency factor;
    completions of the last 7 days count fully, those older than 30 days
    count half. *)
Definition completionWeight (t : Task) : Q :=
  if isCompleted t then
    let age := (today - completed_at t)%Z in
    if (age <=? 7 * msPerDay)%Z then 1
    else if (30 * msPerDay <? age)%Z then 1 # 2
    else midWeight
  else 0.

(** Modelled from the spec: the counts of the missing aggregator. *)
Definition count (p : Task -> bool) (tasks : list Task) : Z :=
  Z.of_nat (List.length (filter p tasks)).

(** Modelled from the spec: totalCount of the missing aggregator. *)
Definition totalCount (tasks : list Task) : Z := Z.of_nat (List.length tasks).

(** Modelled from the spec: [n / max(1, totalCount)] of the missing
    aggregator. *)
Definition ratio (n : Z) (tasks : list Task) : Q :=
  inject_Z n / inject_Z (Z.max 1 (totalCount tasks)).

(** Modelled from the spec: the missing aggregator's productivity,
    100 times the weighted completions over max(1, totalCount), clamped to
    [0,100]. *)
Definition productivityOf (tasks : list Task) : Q :=
  clamp 0 100
    (100 * sumQ (map completionWeight tasks)
     / inject_Z (Z.max 1 (totalCount tasks))).

(** Modelled from the spec: urgentRatio of the missing aggregator. *)
Definition urgentRatio (tasks : list Task) : Q :=
  ratio (count isUrgent tasks) tasks.

(** Modelled from the spec: overdueRatio of the missing aggregator. *)
Definition overdueRatio (tasks : list Task) : Q :=
  ratio (count isOverdue tasks) tasks.

(** Modelled from the spec: the missing aggregator's burnout,
    [100 * clamp01(0.6 * urgentRatio + 0.4 * overdueRatio)]. *)
Definition burnoutOf (tasks : list Task) : Q :=
  100 * PriorityScorer.clamp01 (0.6 * urgentRatio tasks + 0.4 * overdueRatio tasks).

(** Modelled from the spec: the missing aggregator's tasks per category
    name; a task without a category counts for none. *)
Definition categoryCounts (tasks : list Task) : list (jsstring * nat) :=
  fold_left (fun acc t =>
               match category t with
               | Some name => bump name acc
               | None => acc
               end) tasks [].

(** Modelled from the spec: the missing aggregator's focus, the five most
    used category names. *)
Definition focusOf (tasks : list Task) : list jsstring :=
  map fst (firstn 5 (sort (categoryCounts tasks))).

(** Modelled from the spec: the missing aggregator's trigger rules, in
    their order: burnout >= 70; overdueRatio > 0.2; one category with more
    than half of the tasks; productivity < 40 with at least 5 tasks. *)
Definition recommendationsOf (tasks : list Task) : list Recommendation :=
  (if Qle_bool 70 (burnoutOf tasks) then [DeferNonUrgentWork] else [])
  ++ (if Qlt_bool 0.2 (overdueRatio tasks) then [DeadlineReviewSession] else [])
  ++ (if existsb (fun nc => (List.length tasks <? 2 * snd nc)%nat)
                 (categoryCounts tasks)
      then [RebalanceFocus] else [])
  ++ (if Qlt_bool (productivityOf tasks) 40 && (5 <=? totalCount tasks)%Z
      then [BreakTasksIntoSmallerUnits] else []).

(** Modelled from the spec: [aggregate(tasks, contexts)] of the missing
    aggregator, section 4.4: productivity with the recency discount,
    burnout from the urgent and overdue ratios, the five most used
    category names, and one recommendation per rule that fires, in the
    order of the rules. *)
Definition aggregate (tasks : list Task)
                     (contexts : list TaskContext.ContextEntry)
  : AnalyticsSnapshot :=
  {| productivity := productivityOf tasks;
     burnout := burnoutOf tasks;
     focus := focusOf tasks;
     recommendations := recommendationsOf tasks |}.
End Aggregate.

End InsightAggregator.

(** ** Vocabulary of the properties *)

Module Props.

(** A string that neither starts nor ends with whitespace. *)
Definition trimmed (s : jsstring) : bool :=
  match s with
  | [] => true
  | c :: _ => negb (isWhiteSpace c) && negb (isWhiteSpace (last s c))
  end.

(** The toast both creation handlers show for a blank title. *)
Definition titleRequired : UI.Toast :=
  {| UI.title := lit "Title Required";
     UI.description := Plain (lit "Please enter a task title");
     UI.variant := Destructive |}.

(** No HTTP request at all was made. *)
Definition noRequest (l : list Event) : Prop := forall r, ~ In (EFetch r) l.

(** No task was handed to the task list. *)
Definition noTaskAdded (l : list Event) : Prop :=
  forall v, ~ In (EDispatchAddTask v) l.

(** What an exchange comes to: the parsed body, or the exception for a
    rejected [fetch] (network failure, timeout, abort), for a status
    outside 2xx, or for a body that is not JSON. *)
Definition exchange (o : FetchOutcome) : res value :=
  match o with
  | Rejected e => Throw e
  | Resolved r =>
      if ok r then
        match json r with
        | Some v => Ok v
        | None => Throw JsonSyntaxError
        end
      else Throw (HttpError (Eff.status r))
  end.



(** The host answers every GET with the JSON value [response]. *)
Definition answersEveryGet (h : Host) (response : value) : Prop :=
  forall u, exists code,
    fetch h {| url := u; method := None; body := None |}
    = Resolved {| ok := true; status := code; json := Some response |}.

(** [response.results] where the read is defined, [undefined] elsewhere. *)
Definition resultsField (response : value) : value :=
  match response with
  | VObj props => lookup (lit "results") props
  | _ => VUndefined
  end.

(** [l'] is [l] without the tasks whose id is [p], the others in order. *)
Inductive RemovedById (p : jsstring) : list TaskContext.Task -> list TaskContext.Task -> Prop :=
| removed_nil : RemovedById p [] []
| removed_drop (t : TaskContext.Task) (l l' : list TaskContext.Task) :
    TaskContext.id t = p -> RemovedById p l l' -> RemovedById p (t :: l) l'
| removed_keep (t : TaskContext.Task) (l l' : list TaskContext.Task) :
    TaskContext.id t <> p -> RemovedById p l l' -> RemovedById p (t :: l) (t :: l').

(** The overdue flag as the data model derives it, from the parsed
    deadline, the current time and the status alone. *)
Definition derivedOverdue (parsed : option Z) (today : Z) (st : TaskContext.Status) : bool :=
  match parsed with
  | Some t => (t <? today)%Z && negb (TaskContext.status_eqb st TaskContext.completed)
  | None => false
  end.

Definition sevenDays : Z := 7 * 24 * 60 * 60 * 1000.

(** The two task-creation flows, each with the state its component is in
    when the user submits. *)
Inductive Flow : Type :=
| ViaTaskManager (s : TaskManager.State)
| ViaQuickAdd (s : QuickAddTask.State).

Definition formOf (f : Flow) : FormData :=
  match f with
  | ViaTaskManager s => TaskManager.formData s
  | ViaQuickAdd s => QuickAddTask.formData s
  end.

(** Submitting: [handleCreateTask] in the task manager, [handleSubmit] in
    the quick-add dialog.  The result, the component afterwards, and what
    happened on the way. *)
Definition submit (h : Host) (f : Flow) : res unit * Flow * list Event :=
  match f with
  | ViaTaskManager s =>
      let (r, w) := run TaskManager.handleCreateTask h s in
      (r, ViaTaskManager (comp w), log w)
  | ViaQuickAdd s =>
      let (r, w) := run QuickAddTask.handleSubmit h s in
      (r, ViaQuickAdd (comp w), log w)
  end.

Definition eventsOf (h : Host) (f : Flow) : list Event := snd (submit h f).

(** [req] is a call of [calculatePriority] on the task data [td]. *)
Definition isScoringRequest (h : Host) (req : Request)
           (td : list (jsstring * value)) : Prop :=
  url req = ApiService.API_BASE_URL h ++ lit "/ai/calculate-priority/"
  /\ body req = Some (VObj [(lit "task_data", VObj td)]).

(** [req] is a call of [createTask] on the task data [td]. *)
Definition isCreateRequest (h : Host) (req : Request)
           (td : list (jsstring * value)) : Prop :=
  url req = ApiService.API_BASE_URL h ++ lit "/tasks/"
  /\ method req = Some (lit "POST")
  /\ body req = Some (VObj td).

End Props.

(** ** Concrete hosts and inputs *)

Module Demo.

Definition scoringAnswer : value :=
  VObj [(lit "priority_score", VNum 0.6);
        (lit "priority", VStr (lit "high"));
        (lit "reasoning", VStr (lit "High priority primarily due to an approaching deadline."))].

Definition createdTask : value :=
  VObj [(lit "id", VStr (lit "7f3c"));
        (lit "title", VStr (lit "Pay rent"));
        (lit "status", VStr (lit "todo"))].

(** A server that scores and stores; the clock starts on 2024-11-02. *)
Definition server (r : Request) : FetchOutcome :=
  if str_eqb (url r) (lit "http://localhost:8000/api/ai/calculate-priority/")
  then Resolved {| ok := true; status := 200; json := Some scoringAnswer |}
  else if str_eqb (url r) (lit "http://localhost:8000/api/tasks/")
  then Resolved {| ok := true; status := 201; json := Some createdTask |}
  else Resolved {| ok := false; status := 404; json := None |}.

Definition online : Host :=
  {| NEXT_PUBLIC_API_URL := None;
     fetch := server;
     Date_now := fun k => (1730505600000 + Z.of_nat k)%Z;
     URLSearchParams_toString := fun _ => [];
     Date_parse := fun _ => None |}.

(** A host without network: every [fetch] rejects. *)
Definition offline : Host :=
  {| NEXT_PUBLIC_API_URL := None;
     fetch := fun _ => Rejected (FetchFailed (lit "Failed to fetch"));
     Date_now := fun k => (1730505600000 + Z.of_nat k)%Z;
     URLSearchParams_toString := fun _ => [];
     Date_parse := fun _ => None |}.

(** A host whose server wraps a number where the page of results goes. *)
Definition oddPage : value := VObj [(lit "results", VNum 1); (lit "count", VNum 1)].

Definition odd : Host :=
  {| NEXT_PUBLIC_API_URL := None;
     fetch := fun _ => Resolved {| ok := true; status := 200; json := Some oddPage |};
     Date_now := fun _ => 0%Z;
     URLSearchParams_toString := fun _ => [];
     Date_parse := fun _ => None |}.

Definition page : value :=
  VObj [(lit "count", VNum 1); (lit "results", VArr [createdTask])].

Definition paging : Host :=
  {| NEXT_PUBLIC_API_URL := None;
     fetch := fun _ => Resolved {| ok := true; status := 200; json := Some page |};
     Date_now := fun _ => 0%Z;
     URLSearchParams_toString := fun _ => [];
     Date_parse := fun _ => None |}.

Definition blankForm : FormData :=
  {| title := lit "   "; description := lit "later"; category := []; deadline := [] |}.

Definition rentForm : FormData :=
  {| title := lit "  Pay rent "; description := lit " before the 5th  ";
     category := []; deadline := [] |}.

Definition manager (f : FormData) : TaskManager.State :=
  {| TaskManager.showCreateForm := true;
     TaskManager.isCreating := false;
     TaskManager.isGettingSuggestions := false;
     TaskManager.formData := f;
     TaskManager.aiSuggestions := VNull |}.

Definition quick (f : FormData) : QuickAddTask.State :=
  {| QuickAddTask.isLoading := false;
     QuickAddTask.isGettingSuggestions := false;
     QuickAddTask.formData := f;
     QuickAddTask.aiSuggestions := VNull |}.

Definition task (i : jsstring) (d : option jsstring) (s : TaskContext.Status)
                (flag : bool) : TaskContext.Task :=
  {| TaskContext.id := i;
     TaskContext.title := lit "Pay rent";
     TaskContext.description := [];
     TaskContext.category := None;
     TaskContext.category_id := None;
     TaskContext.priority := TaskContext.medium;
     TaskContext.priority_score := 0.4;
     TaskContext.deadline := d;
     TaskContext.status := s;
     TaskContext.ai_suggestions := None;
     TaskContext.tags := [];
     TaskContext.created_at := lit "2024-11-01T09:00:00Z";
     TaskContext.updated_at := lit "2024-11-01T09:00:00Z";
     TaskContext.is_overdue := flag;
     TaskContext.days_until_deadline := None |}.

(** What the quick-add dialog sends for [rentForm] on [online]. *)
Definition rentTaskData : list (jsstring * value) :=
  [(lit "title", VStr (lit "Pay rent"));
   (lit "description", VStr (lit "before the 5th"));
   (lit "category_id", VStr (lit "Personal"));
   (lit "priority", VStr (lit "high"));
   (lit "priority_score", VNum 0.6);
   (lit "deadline", VStr (lit "2024-11-09"));
   (lit "status", VStr (lit "todo"));
   (lit "ai_suggestions", VNull)].

Definition rentCreateRequest : Request :=
  {| url := lit "http://localhost:8000/api/tasks/";
     method := Some (lit "POST");
     body := Some (VObj rentTaskData) |}.

Definition rentScoringData : list (jsstring * value) :=
  [(lit "title", VStr (lit "Pay rent"));
   (lit "description", VStr (lit "before the 5th"));
   (lit "category_id", VStr (lit "Personal"));
   (lit "deadline", VStr (lit "2024-11-09"))].

Definition rentScoringRequest : Request :=
  {| url := lit "http://localhost:8000/api/ai/calculate-priority/";
     method := Some (lit "POST");
     body := Some (VObj [(lit "task_data", VObj rentScoringData)]) |}.

Definition board (l : list TaskContext.Task) : TaskContext.TaskState :=
  {| TaskContext.tasks := l;
     TaskContext.contexts := [];
     TaskContext.categories := [];
     TaskContext.loading := false;
     TaskContext.error := None |}.

(** A host whose [Date] parses the one date the examples use:
    2024-10-01T00:00:00Z. *)
Definition calendar : Host :=
  {| NEXT_PUBLIC_API_URL := None;
     fetch := server;
     Date_now := fun k => (1730505600000 + Z.of_nat k)%Z;
     URLSearchParams_toString := fun _ => [];
     Date_parse := fun s => if str_eqb s (lit "2024-10-01")
                            then Some 1727740800000%Z else None |}.

(** Due a month ago and still to do, but not flagged by the server. *)
Definition lateTask : TaskContext.Task :=
  task (lit "a") (Some (lit "2024-10-01")) TaskContext.todo false.

(** The same task as the server would flag it. *)
Definition lateTaskFlagged : TaskContext.Task :=
  task (lit "a") (Some (lit "2024-10-01")) TaskContext.todo true.

(** Completed and without a deadline, but flagged by the server. *)
Definition doneTask : TaskContext.Task :=
  task (lit "b") None TaskContext.completed true.

Definition fourTasks : list TaskContext.Task :=
  [task (lit "a") None TaskContext.todo false;
   task (lit "b") None TaskContext.todo false;
   task (lit "c") None TaskContext.todo false;
   task (lit "b") None TaskContext.completed false].

Definition relaxed : PriorityScorer.Terms :=
  {| PriorityScorer.deadlineUrgency := 0.5;
     PriorityScorer.textUrgency := 0;
     PriorityScorer.complexity := 0.2;
     PriorityScorer.workloadPressure := 0 |}.

Definition pressing : PriorityScorer.Terms :=
  {| PriorityScorer.deadlineUrgency := 1;
     PriorityScorer.textUrgency := 0.9;
     PriorityScorer.complexity := 0.5;
     PriorityScorer.workloadPressure := 0 |}.

End Demo.

(** ** Further vocabulary and inputs *)

Module More.
Import Props.

(** How UPDATE_TASK relates a task to what stands in its place. *)
Definition Replaced (payload old new : TaskContext.Task) : Prop :=
  (TaskContext.id old = TaskContext.id payload /\ new = payload)
  \/ (TaskContext.id old <> TaskContext.id payload /\ new = old).

(** Higher scores first. *)
Definition scoreNotBelow (a b : TaskContext.Task) : Prop :=
  TaskContext.priority_score b <= TaskContext.priority_score a.

Definition hasStatus (wanted : TaskContext.Status) (t : TaskContext.Task) : bool :=
  TaskContext.status_eqb (TaskContext.status t) wanted.

Definition hasScore (q : Q) (t : TaskContext.Task) : bool :=
  Qeq_bool (TaskContext.priority_score t) q.

Definition scored (i : jsstring) (q : Q) (s : TaskContext.Status)
  : TaskContext.Task :=
  {| TaskContext.id := i;
     TaskContext.title := lit "Pay rent";
     TaskContext.description := [];
     TaskContext.category := None;
     TaskContext.category_id := None;
     TaskContext.priority := TaskContext.high;
     TaskContext.priority_score := q;
     TaskContext.deadline := Some (lit "2024-10-01");
     TaskContext.status := s;
     TaskContext.ai_suggestions := None;
     TaskContext.tags := [];
     TaskContext.created_at := lit "2024-09-01T09:00:00Z";
     TaskContext.updated_at := lit "2024-09-01T09:00:00Z";
     TaskContext.is_overdue := false;
     TaskContext.days_until_deadline := None |}.

Definition scoredTasks : list TaskContext.Task :=
  [scored (lit "a") 0.4 TaskContext.todo;
   scored (lit "b") 0.9 TaskContext.todo;
   scored (lit "c") 0.4 TaskContext.completed;
   scored (lit "d") 0.9 TaskContext.todo].

(** A host whose clock stands still on 2024-11-02 and that knows the
    date 2024-10-01. *)
Definition still : Host :=
  {| NEXT_PUBLIC_API_URL := None;
     fetch := Demo.server;
     Date_now := fun _ => 1730505600000%Z;
     URLSearchParams_toString := fun _ => [];
     Date_parse := fun s => if str_eqb s (lit "2024-10-01")
                            then Some 1727740800000%Z else None |}.

(** The request a call of [request endpoint options] sends. *)
Definition requestOf (h : Host) (endpoint : jsstring)
           (options : ApiService.RequestInit) : Request :=
  {| url := ApiService.API_BASE_URL h ++ endpoint;
     method := ApiService.init_method options;
     body := ApiService.init_body options |}.

(** No filter is given, or every filter given is absent or empty. *)
Definition noFilter (params : option (list (jsstring * option jsstring))) : Prop :=
  match params with
  | None => True
  | Some entries =>
      forall k v, In (k, v) entries -> v = None \/ v = Some []
  end.

(** The request [enhancedDispatch] sends before it touches the state, for
    the two actions that have one. *)
Definition serverRequest (h : Host) (ofTask : TaskContext.Task -> value)
           (action : TaskContext.TaskAction) : option Request :=
  match action with
  | TaskContext.UPDATE_TASK payload =>
      Some {| url := ApiService.API_BASE_URL h
                     ++ lit "/tasks/" ++ TaskContext.id payload ++ lit "/";
              method := Some (lit "PUT");
              body := Some (ofTask payload) |}
  | TaskContext.DELETE_TASK payload =>
      Some {| url := ApiService.API_BASE_URL h
                     ++ lit "/tasks/" ++ payload ++ lit "/";
              method := Some (lit "DELETE");
              body := None |}
  | _ => None
  end.

(** The action that reaches the reducer once the server has answered
    with [answer]. *)
Definition confirmed (asTask : value -> TaskContext.Task)
           (action : TaskContext.TaskAction) (answer : value)
  : TaskContext.TaskAction :=
  match action with
  | TaskContext.UPDATE_TASK _ => TaskContext.UPDATE_TASK (asTask answer)
  | _ => action
  end.

Definition taskDeleted : UI.Toast :=
  {| UI.title := lit "Task Deleted";
     UI.description := Plain (lit "Task has been removed from your list");
     UI.variant := Destructive |}.

Definition deleteFailed : UI.Toast :=
  {| UI.title := lit "Delete Failed";
     UI.description := Plain (lit "Failed to delete task");
     UI.variant := Destructive |}.

(** A server that answers everything with 204 No Content. *)
Definition noContent : Host :=
  {| NEXT_PUBLIC_API_URL := None;
     fetch := fun _ => Resolved {| ok := true; status := 204; json := None |};
     Date_now := fun _ => 1730505600000%Z;
     URLSearchParams_toString := fun _ => [];
     Date_parse := fun _ => None |}.

(** A server that refuses everything, with a JSON body saying why. *)
Definition refusing : Host :=
  {| NEXT_PUBLIC_API_URL := None;
     fetch := fun _ =>
       Resolved {| ok := false; status := 400;
                   json := Some (VObj [(lit "detail", VStr (lit "Bad request"))]) |};
     Date_now := fun _ => 1730505600000%Z;
     URLSearchParams_toString := fun _ => [];
     Date_parse := fun _ => None |}.

Definition idOnly (t : TaskContext.Task) : value :=
  VObj [(lit "id", VStr (TaskContext.id t))].

Definition asLateTask (v : value) : TaskContext.Task := Demo.lateTaskFlagged.

(** The busy flag of a creation flow: [isCreating], [isLoading]. *)
Definition busy (f : Flow) : bool :=
  match f with
  | ViaTaskManager s => TaskManager.isCreating s
  | ViaQuickAdd s => QuickAddTask.isLoading s
  end.

(** The suggestions a creation flow holds. *)
Definition heldSuggestions (f : Flow) : value :=
  match f with
  | ViaTaskManager s => TaskManager.aiSuggestions s
  | ViaQuickAdd s => QuickAddTask.aiSuggestions s
  end.

Definition resultOfSubmit (h : Host) (f : Flow) : res unit := fst (fst (submit h f)).

Definition afterSubmit (h : Host) (f : Flow) : Flow := snd (fst (submit h f)).

(** The flow after [applySuggestion field value]. *)
Definition afterApply (h : Host) (f : Flow) (field : SuggestionField)
           (value : jsstring) : Flow :=
  match f with
  | ViaTaskManager s =>
      ViaTaskManager (comp (snd (run (TaskManager.applySuggestion field value) h s)))
  | ViaQuickAdd s =>
      ViaQuickAdd (comp (snd (run (QuickAddTask.applySuggestion field value) h s)))
  end.


Definition suggestionsTitleRequired : UI.Toast :=
  {| UI.title := lit "Title Required";
     UI.description :=
       Plain (lit "Please enter a task title to get AI suggestions");
     UI.variant := Destructive |}.


(** The request [ContextInput.handleSubmit] sends for a form. *)
Definition contextRequest (h : Host) (f : ContextInput.Form) : Request :=
  {| url := ApiService.API_BASE_URL h ++ lit "/contexts/";
     method := Some (lit "POST");
     body := Some (VObj [(lit "content", VStr (trim (ContextInput.form_content f)));
                         (lit "source_type",
                           VStr (ContextInput.sourceTypeName
                                   (ContextInput.sourceType f)))]) |}.

Definition contentRequired : UI.Toast :=
  {| UI.title := lit "Content Required";
     UI.description := Plain (lit "Please enter some context content");
     UI.variant := Destructive |}.

Definition contextAdded (t : TaskContext.SourceType) : UI.Toast :=
  {| UI.title := lit "Context Added Successfully! " ++ ContextInput.brain;
     UI.description :=
       Plain (lit "AI has processed your " ++ ContextInput.sourceTypeName t
              ++ lit " and extracted insights");
     UI.variant := Default |}.

Definition contextFailed : UI.Toast :=
  {| UI.title := lit "Error";
     UI.description := Plain (lit "Failed to process context");
     UI.variant := Destructive |}.


Definition suggestion : value :=
  VObj [(lit "suggested_category", VStr (lit "Home"));
        (lit "reasoning", VStr (lit "Recurring household payment"))].

(** A server that answers every request with [suggestion]. *)
Definition suggesting : Host :=
  {| NEXT_PUBLIC_API_URL := None;
     fetch := fun _ => Resolved {| ok := true; status := 200;
                                   json := Some suggestion |};
     Date_now := fun _ => 1730505600000%Z;
     URLSearchParams_toString := fun _ => [];
     Date_parse := fun _ => None |}.

Definition meetingNote : ContextInput.Form :=
  {| ContextInput.form_content := lit " Call the landlord tomorrow ";
     ContextInput.sourceType := TaskContext.message |}.

Definition blankNote : ContextInput.Form :=
  {| ContextInput.form_content := lit "  ";
     ContextInput.sourceType := TaskContext.note |}.

Definition entry : TaskContext.ContextEntry :=
  {| TaskContext.ctx_id := lit "c1";
     TaskContext.content := lit "Call the landlord tomorrow";
     TaskContext.source_type := TaskContext.message;
     TaskContext.processed_insights :=
       {| TaskContext.keywords := [lit "landlord"];
          TaskContext.sentiment := TaskContext.neutral;
          TaskContext.urgency := 0.6;
          TaskContext.extracted_tasks := None |};
     TaskContext.ctx_created_at := lit "2024-11-02T09:00:00Z";
     TaskContext.ctx_updated_at := lit "2024-11-02T09:00:00Z" |}.

Definition asEntry (v : value) : TaskContext.ContextEntry := entry.

Definition typing (f : ContextInput.Form) : ContextInput.State :=
  {| ContextInput.isProcessing := false;
     ContextInput.formData := f;
     ContextInput.context := Demo.board [Demo.lateTask] |}.

(** The tasks handed to the task list, in the order of the dispatches. *)
Fixpoint dispatched (l : list Event) : list value :=
  match l with
  | [] => []
  | EDispatchAddTask v :: r => v :: dispatched r
  | _ :: r => dispatched r
  end.

(** The deadline a submission uses at its [k]-th look at the clock: the
    one in the form, or the date seven days after that reading. *)
Definition deadlineAt (h : Host) (k : nat) (fd : FormData) : jsstring :=
  if str_truthy (deadline fd) then deadline fd
  else isoDate (Date_now h k + sevenDays).

(** The request with which a submission of the form [fd] asks for the
    priority. *)
Definition scoringRequestOf (h : Host) (fd : FormData) : Request :=
  {| url := ApiService.API_BASE_URL h ++ lit "/ai/calculate-priority/";
     method := Some (lit "POST");
     body :=
       Some (VObj
               [(lit "task_data",
                  VObj [(lit "title", VStr (trim (title fd)));
                        (lit "description", VStr (trim (description fd)));
                        (lit "category_id",
                          VStr (str_or (category fd) (lit "Personal")));
                        (lit "deadline", VStr (deadlineAt h 0 fd))])]) |}.

(** The task data a submission of the form [fd] sends to [createTask],
    once the scoring answer had the priority [p] and the score [ps], while
    the component held the suggestions [ai]. *)
Definition creationDataOf (h : Host) (fd : FormData) (p ps ai : value)
  : list (jsstring * value) :=
  [(lit "title", VStr (trim (title fd)));
   (lit "description", VStr (trim (description fd)));
   (lit "category_id", VStr (str_or (category fd) (lit "Personal")));
   (lit "priority", p);
   (lit "priority_score", ps);
   (lit "deadline", VStr (deadlineAt h 1 fd));
   (lit "status", VStr (lit "todo"));
   (lit "ai_suggestions", ai)].

Definition creationRequestOf (h : Host) (fd : FormData) (p ps ai : value)
  : Request :=
  {| url := ApiService.API_BASE_URL h ++ lit "/tasks/";
     method := Some (lit "POST");
     body := Some (VObj (creationDataOf h fd p ps ai)) |}.

End More.

(** * Properties *)

(** ** Strings *)

Module StringFacts.
Import Props.

Lemma str_eqb_eq (a b : jsstring) : str_eqb a b = true <-> a = b.
Proof.
  revert b; induction a as [|x a IH]; intros [|y b]; simpl;
    try (split; [discriminate | discriminate]); try tauto.
  rewrite andb_true_iff, N.eqb_eq, IH.
  split; [intros [-> ->]; reflexivity | intros E; injection E; auto].
Qed.

Lemma str_eqb_refl (a : jsstring) : str_eqb a a = true.
Proof. apply str_eqb_eq; reflexivity. Qed.

Lemma str_eqb_neq (a b : jsstring) : str_eqb a b = false <-> a <> b.
Proof.
  split.
  - intros E H. apply str_eqb_eq in H. congruence.
  - intros H. destruct (str_eqb a b) eqn:E; [|reflexivity].
    apply str_eqb_eq in E. contradiction.
Qed.

Lemma blank_app (a b : jsstring) : blank (a ++ b) = blank a && blank b.
Proof. apply forallb_app. Qed.

Lemma blank_rev (s : jsstring) : blank (rev s) = blank s.
Proof.
  induction s as [|c s IH]; simpl; [reflexivity|].
  rewrite blank_app, IH. simpl. rewrite andb_true_r. apply andb_comm.
Qed.

(** [trimStart] drops a blank prefix and stops at a visible code unit. *)
Lemma trimStart_split (s : jsstring) :
  exists l, s = l ++ trimStart s /\ blank l = true
            /\ match trimStart s with
               | [] => True
               | c :: _ => isWhiteSpace c = false
               end.
Proof.
  induction s as [|c s (l & E & B & V)]; simpl.
  - exists []. auto.
  - destruct (isWhiteSpace c) eqn:W.
    + exists (c :: l). simpl. rewrite W, B. split; [congruence | auto].
    + exists []. simpl. auto.
Qed.

Lemma trimStart_blank (s : jsstring) : blank s = true -> trimStart s = [].
Proof.
  induction s as [|c s IH]; simpl; [reflexivity|].
  intros H. apply andb_true_iff in H as [-> H]. auto.
Qed.

Lemma trimStart_nil_blank (s : jsstring) : trimStart s = [] -> blank s = true.
Proof.
  intros E. destruct (trimStart_split s) as (l & Es & B & _).
  rewrite E, app_nil_r in Es. congruence.
Qed.

Lemma trimStart_visible (c : N) (s : jsstring) :
  isWhiteSpace c = false -> trimStart (c :: s) = c :: s.
Proof. intros W. simpl. rewrite W. reflexivity. Qed.

(** [trimEnd] drops a blank suffix. *)
Lemma trimEnd_split (s : jsstring) :
  exists r, s = trimEnd s ++ r /\ blank r = true.
Proof.
  destruct (trimStart_split (rev s)) as (l & E & B & _).
  exists (rev l). split.
  - unfold trimEnd. rewrite <- rev_app_distr, <- E, rev_involutive. reflexivity.
  - rewrite blank_rev. exact B.
Qed.

Lemma trimEnd_head (c : N) (s : jsstring) :
  isWhiteSpace c = false -> exists s', trimEnd (c :: s) = c :: s'.
Proof.
  intros W. unfold trimEnd. simpl.
  destruct (trimStart_split (rev s ++ [c])) as (l & E & B & _).
  destruct (trimStart (rev s ++ [c])) as [|x t] eqn:T.
  - rewrite app_nil_r in E. rewrite <- E, blank_app in B. simpl in B.
    rewrite W, andb_false_r in B. discriminate.
  - destruct (exists_last (l := x :: t)) as (u & y & Eu); [discriminate|].
    rewrite Eu in E. rewrite app_assoc in E.
    apply app_inj_tail in E as [_ <-].
    rewrite Eu, rev_app_distr. simpl. eauto.
Qed.

(** What [trim] returns: the input without a blank prefix and a blank
    suffix, and nothing blank left at either end. *)
Lemma trim_spec (s : jsstring) :
  (exists l r, s = l ++ trim s ++ r /\ blank l = true /\ blank r = true)
  /\ trimmed (trim s) = true.
Proof.
  destruct (trimStart_split s) as (l & El & Bl & V).
  destruct (trimEnd_split (trimStart s)) as (r & Er & Br).
  split.
  - exists l, r. unfold trim. rewrite <- Er. auto.
  - unfold trim. destruct (trimStart s) as [|c t] eqn:T; [reflexivity|].
    destruct (trimEnd_head c t V) as (s' & E). rewrite E.
    unfold trimEnd in E.
    destruct (trimStart_split (rev (c :: t))) as (l2 & E2 & B2 & V2).
    destruct (trimStart (rev (c :: t))) as [|y u] eqn:T2; [discriminate|].
    assert (L : last (c :: s') c = y).
    { rewrite <- E. simpl. apply last_last. }
    unfold trimmed. rewrite L, V, V2. reflexivity.
Qed.

Lemma trim_blank (s : jsstring) : blank s = true -> trim s = [].
Proof. intros B. unfold trim. rewrite (trimStart_blank s B). reflexivity. Qed.

Lemma trim_nil_blank (s : jsstring) : trim s = [] -> blank s = true.
Proof.
  intros E. destruct (trim_spec s) as [(l & r & Es & Bl & Br) _].
  rewrite E in Es. simpl in Es. rewrite Es, blank_app, Bl, Br. reflexivity.
Qed.

Lemma trim_visible (s : jsstring) :
  blank s = false -> str_truthy (trim s) = true.
Proof.
  intros B. destruct (trim s) eqn:E; [|reflexivity].
  apply trim_nil_blank in E. congruence.
Qed.

Lemma isoDate_not_empty (t : Z) : isoDate t <> [].
Proof.
  unfold isoDate. destruct (civilFromDays (t / msPerDay)) as [[y m] d].
  intros E. apply app_eq_nil in E as [_ E]. discriminate.
Qed.

End StringFacts.

(** ** Running the handlers *)

Module HandlerFacts.
Import Props StringFacts.

Arguments ApiService.API_BASE_URL : simpl never.
Arguments trim : simpl never.
Arguments isoDate : simpl never.
Arguments lit : simpl never.
Arguments Z.add : simpl never.
Arguments Z.mul : simpl never.

(** Unfolds the monad so that a handler becomes a cascade of matches on
    what the host answers. *)
Ltac unfold_eff :=
  unfold run, bind, tryCatch, ret, throw, liftRes, toast, console_error,
    emit, host, getState, setState, now in *.

(** [request] makes one [fetch]; it returns the parsed body, or logs the
    exception and throws it again. *)
Lemma request_run (St : Type) (endpoint : jsstring)
      (options : ApiService.RequestInit) (h : Host) (w : World St) :
  ApiService.request endpoint options h w
  = let req := {| url := ApiService.API_BASE_URL h ++ endpoint;
                  method := ApiService.init_method options;
                  body := ApiService.init_body options |} in
    match exchange (fetch h req) with
    | Ok v =>
        (Ok v, {| comp := comp w; log := log w ++ [EFetch req]; reads := reads w |})
    | Throw e =>
        (Throw e,
         {| comp := comp w;
            log := (log w ++ [EFetch req])
                   ++ [EConsoleError (lit "API request failed:") e];
            reads := reads w |})
    end.
Proof.
  unfold ApiService.request, ApiService.callFetch. unfold_eff. cbn zeta.
  destruct (fetch h _) as [e | [o c [v|]]]; cbn; try reflexivity;
    destruct o; reflexivity.
Qed.

Lemma manager_blank_title (h : Host) (s : TaskManager.State) :
  blank (title (TaskManager.formData s)) = true ->
  run TaskManager.handleCreateTask h s
  = (Ok tt, {| comp := s; log := [EToast titleRequired]; reads := 0 |}).
Proof.
  intros B. unfold TaskManager.handleCreateTask. unfold_eff. cbn [comp].
  rewrite (trim_blank _ B). reflexivity.
Qed.

Lemma quick_blank_title (h : Host) (s : QuickAddTask.State) :
  blank (title (QuickAddTask.formData s)) = true ->
  run QuickAddTask.handleSubmit h s
  = (Ok tt, {| comp := s; log := [EToast titleRequired]; reads := 0 |}).
Proof.
  intros B. unfold QuickAddTask.handleSubmit. unfold_eff. cbn [comp].
  rewrite (trim_blank _ B). reflexivity.
Qed.

Ltac unfold_handlers :=
  unfold TaskManager.handleCreateTask, TaskManager.handleGetSuggestions,
    QuickAddTask.handleSubmit,
    ApiService.calculatePriority, ApiService.createTask,
    ApiService.getAISuggestions,
    TaskManager.setIsCreating, TaskManager.setFormData,
    TaskManager.setAiSuggestions, TaskManager.setShowCreateForm,
    TaskManager.setIsGettingSuggestions,
    QuickAddTask.setIsLoading, QuickAddTask.setFormData,
    QuickAddTask.setAiSuggestions, QuickAddTask.onOpenChange.

Ltac reduce :=
  cbn [comp log reads app negb fst snd str_or str_truthy
       ApiService.post ApiService.init_method ApiService.init_body
       TaskManager.showCreateForm TaskManager.isCreating
       TaskManager.isGettingSuggestions TaskManager.formData
       TaskManager.aiSuggestions
       QuickAddTask.isLoading QuickAddTask.isGettingSuggestions
       QuickAddTask.formData QuickAddTask.aiSuggestions
       title description category deadline
       submit eventsOf formOf] in *.

(** One step of a handler: the next request, or a case split on what
    decides the next branch. *)
Ltac exec_step :=
  match goal with
  | |- context [ApiService.request ?e ?o ?h ?w] =>
      rewrite (request_run _ e o h w); cbn zeta
  | |- context [match exchange ?o with _ => _ end] =>
      let E := fresh "X" in destruct (exchange o) eqn:E
  | |- context [match getProp ?v ?k with _ => _ end] =>
      let E := fresh "G" in destruct (getProp v k) eqn:E
  | |- context [toISODate ?t] =>
      let E := fresh "T" in destruct (toISODate t) eqn:E
  | |- context [if str_truthy ?d then _ else _] =>
      let E := fresh "D" in destruct (str_truthy d) eqn:E
  end; reduce.

(** Runs a submission whose title is visible, down to every way it can end. *)
Ltac exec_submit B :=
  unfold eventsOf, submit; unfold_handlers; unfold_eff; reduce;
  rewrite (trim_visible _ B); reduce; repeat exec_step.

Lemma toISODate_valid (t : Z) (e : exn) :
  validTime t = true -> toISODate t = Throw e -> False.
Proof. unfold toISODate. intros ->. discriminate. Qed.

Lemma toISODate_value (t : Z) (d : jsstring) :
  toISODate t = Ok d -> d = isoDate t.
Proof. unfold toISODate. destruct (validTime t); congruence. Qed.

Lemma str_truthy_false (d : jsstring) : str_truthy d = false -> d = [].
Proof. destruct d; [reflexivity | discriminate]. Qed.

Lemma endpoints_differ (base : jsstring) :
  base ++ lit "/ai/calculate-priority/" <> base ++ lit "/tasks/".
Proof. intros E. apply app_inv_head in E. discriminate. Qed.

(** Membership in the short logs the handlers leave. *)
Ltac pick_request H :=
  cbn [In] in H;
  repeat match type of H with
         | _ \/ _ => destruct H as [H | H]
         | False => contradiction
         | EFetch _ = EFetch _ => injection H as H; subst
         | _ = _ => discriminate H
         end.

Lemma submit_blank_title (h : Host) (f : Flow) :
  blank (title (formOf f)) = true ->
  submit h f = (Ok tt, f, [EToast titleRequired]).
Proof.
  intros B. destruct f as [s | s]; cbn [submit formOf] in *.
  - rewrite (manager_blank_title h s B). reflexivity.
  - rewrite (quick_blank_title h s B). reflexivity.
Qed.

(** A submission with a visible title and a usable clock starts by
    asking for the priority of the trimmed task data. *)
Lemma submit_first_scores (h : Host) (f : Flow) :
  blank (title (formOf f)) = false ->
  (deadline (formOf f) <> [] \/ validTime (Date_now h 0 + sevenDays) = true) ->
  exists req rest,
    eventsOf h f = EFetch req :: rest
    /\ isScoringRequest h req
         [(lit "title", VStr (trim (title (formOf f))));
          (lit "description", VStr (trim (description (formOf f))));
          (lit "category_id",
            VStr (str_or (category (formOf f)) (lit "Personal")));
          (lit "deadline",
            VStr (if str_truthy (deadline (formOf f))
                  then deadline (formOf f)
                  else isoDate (Date_now h 0 + sevenDays)))].
Proof.
  intros B V. unfold sevenDays in *.
  destruct f as [[scf ic igs [t d c dl] ai] | [il igs [t d c dl] ai]];
    reduce; exec_submit B;
    try (destruct V as [V | V];
         [ apply str_truthy_false in D; contradiction
         | exfalso; eapply toISODate_valid; eassumption ]);
    try (apply toISODate_value in T; subst);
    do 2 eexists; (split; [reflexivity | split; reflexivity]).
Qed.

(** Whatever happens, the only requests of a submission are one scoring
    request and, after it, at most one creation request, both built from
    the trimmed form. *)
Lemma submit_requests (h : Host) (f : Flow) (req : Request) :
  blank (title (formOf f)) = false ->
  In (EFetch req) (eventsOf h f) ->
  (exists d,
      isScoringRequest h req
        [(lit "title", VStr (trim (title (formOf f))));
         (lit "description", VStr (trim (description (formOf f))));
         (lit "category_id",
           VStr (str_or (category (formOf f)) (lit "Personal")));
         (lit "deadline", VStr d)])
  \/ (exists p ps ai,
      isCreateRequest h req
        [(lit "title", VStr (trim (title (formOf f))));
         (lit "description", VStr (trim (description (formOf f))));
         (lit "category_id",
           VStr (str_or (category (formOf f)) (lit "Personal")));
         (lit "priority", p);
         (lit "priority_score", ps);
         (lit "deadline",
           VStr (if str_truthy (deadline (formOf f))
                 then deadline (formOf f)
                 else isoDate (Date_now h 1 + sevenDays)));
         (lit "status", VStr (lit "todo"));
         (lit "ai_suggestions", ai)]).
Proof.
  intros B. unfold sevenDays.
  destruct f as [[scf ic igs [t d c dl] ai] | [il igs [t d c dl] ai]];
    reduce; exec_submit B; intros I; pick_request I;
    repeat match goal with
           | T : toISODate _ = Ok _ |- _ => apply toISODate_value in T; subst
           end;
    first [ left; eexists; split; reflexivity
          | right; do 3 eexists; repeat split; reflexivity ].
Qed.

(** *** The suggestions call *)



(** *** The collection fetchers *)

(** After a successful exchange the three fetchers go the same way. *)
Lemma unwrap_page (St : Type) (h : Host) (w : World St) (response : value) :
  bind (if truthy response
        then liftRes (getProp response (lit "results"))
        else ret response)
       (fun paginated =>
          if truthy paginated then liftRes (getProp response (lit "results"))
          else ret (if isArray response then response else VArr [])) h w
  = (Ok (if truthy (resultsField response) then resultsField response
         else if isArray response then response else VArr []), w).
Proof.
  unfold_eff.
  destruct response as [ | | [|] | q | [|c r] | items | props]; cbn;
    try reflexivity.
  - destruct (Qnum q =? 0)%Z eqn:E; cbn; rewrite ?E; reflexivity.
  - destruct (truthy (lookup (lit "results") props)) eqn:E; cbn; rewrite ?E;
      reflexivity.
Qed.

Lemma get_run (St : Type) (h : Host) (w : World St) (endpoint : jsstring)
      (response : value) :
  answersEveryGet h response ->
  ApiService.request endpoint ApiService.noOptions h w
  = (Ok response,
     {| comp := comp w;
        log := log w ++ [EFetch {| url := ApiService.API_BASE_URL h ++ endpoint;
                                    method := None; body := None |}];
        reads := reads w |}).
Proof.
  intros A. rewrite request_run. cbn.
  destruct (A (ApiService.API_BASE_URL h ++ endpoint)) as [code ->].
  reflexivity.
Qed.

Lemma getCategories_run (h : Host) (response : value) :
  answersEveryGet h response ->
  fst (run ApiService.getCategories h tt)
  = Ok (if truthy (resultsField response) then resultsField response
        else if isArray response then response else VArr []).
Proof.
  intros A. unfold run, ApiService.getCategories.
  unfold bind at 1. rewrite (get_run _ h _ _ response A).
  rewrite unwrap_page. reflexivity.
Qed.

Lemma getContexts_run (h : Host) (response : value) :
  answersEveryGet h response ->
  fst (run ApiService.getContexts h tt)
  = Ok (if truthy (resultsField response) then resultsField response
        else if isArray response then response else VArr []).
Proof.
  intros A. unfold run, ApiService.getContexts.
  unfold bind at 1. rewrite (get_run _ h _ _ response A).
  rewrite unwrap_page. reflexivity.
Qed.

Lemma getTasks_run (h : Host) (response : value)
      (params : option (list (jsstring * option jsstring))) :
  answersEveryGet h response ->
  fst (run (ApiService.getTasks params) h tt)
  = Ok (if truthy (resultsField response) then resultsField response
        else if isArray response then response else VArr []).
Proof.
  intros A. unfold run, ApiService.getTasks.
  unfold bind at 1. unfold host at 1. cbn zeta.
  unfold bind at 1. rewrite (get_run _ h _ _ response A).
  rewrite unwrap_page. reflexivity.
Qed.

End HandlerFacts.

(** ** The reducer, the card and the dashboard *)

Module ContextFacts.
Import TaskContext Props StringFacts.

Lemma filter_removes (p : jsstring) (l : list Task) :
  RemovedById p l (filter (fun task => negb (str_eqb (id task) p)) l).
Proof.
  induction l as [|t l IH]; simpl.
  - constructor.
  - destruct (str_eqb (id t) p) eqn:E; simpl.
    + apply removed_drop; [apply str_eqb_eq; exact E | exact IH].
    + apply removed_keep; [apply str_eqb_neq; exact E | exact IH].
Qed.

Lemma RemovedById_functional (p : jsstring) (l a b : list Task) :
  RemovedById p l a -> RemovedById p l b -> a = b.
Proof.
  intros Ha. revert b.
  induction Ha as [| t l a E _ IH | t l a N _ IH]; intros b Hb.
  - inversion Hb. reflexivity.
  - inversion Hb; subst; [auto | contradiction].
  - inversion Hb; subst; [contradiction | f_equal; auto].
Qed.

Lemma isOverdue_derived (h : Host) (today : Z) (task : Task) :
  TaskCard.isOverdue h today task
  = match deadline task with
    | Some d => str_truthy d
                && derivedOverdue (Date_parse h d) today (status task)
    | None => false
    end.
Proof.
  unfold TaskCard.isOverdue, derivedOverdue.
  destruct (deadline task) as [d|]; [|reflexivity].
  destruct (str_truthy d); reflexivity.
Qed.

Lemma overdue_counts_flags (l : list Task) :
  List.length (filter (fun t => is_overdue t) l)
  = count_occ bool_dec (map is_overdue l) true.
Proof.
  induction l as [|t l IH]; simpl; [reflexivity|].
  destruct (is_overdue t); simpl; [f_equal; exact IH | exact IH].
Qed.

End ContextFacts.

(** ** The scorer's labels *)

Module ScorerFacts.
Import TaskContext PriorityScorer.

Lemma Qle_bool_false (x y : Q) : Qle_bool x y = false -> y < x.
Proof.
  intros E. apply Qnot_le_lt. intros H. apply Qle_bool_iff in H. congruence.
Qed.

(** Each label is a band of scores. *)
Lemma labelOf_bands (s : Q) :
  match labelOf s with
  | urgent => 0.75 <= s
  | high => 0.5 <= s /\ s < 0.75
  | medium => 0.25 <= s /\ s < 0.5
  | low => s < 0.25
  end.
Proof.
  unfold labelOf.
  destruct (Qle_bool 0.75 s) eqn:A; [apply Qle_bool_iff; exact A|].
  destruct (Qle_bool 0.5 s) eqn:B;
    [split; [apply Qle_bool_iff; exact B | apply Qle_bool_false; exact A]|].
  destruct (Qle_bool 0.25 s) eqn:C;
    [split; [apply Qle_bool_iff; exact C | apply Qle_bool_false; exact B]|].
  apply Qle_bool_false; exact C.
Qed.

Lemma labelOf_monotone (s1 s2 : Q) :
  s1 <= s2 -> (rank (labelOf s1) <= rank (labelOf s2))%nat.
Proof.
  intros L. pose proof (labelOf_bands s1) as B1. pose proof (labelOf_bands s2) as B2.
  destruct (labelOf s1), (labelOf s2); simpl; try lia; exfalso;
    repeat match goal with H : _ /\ _ |- _ => destruct H end;
    match goal with
    | Lo : ?a <= s1, Hi : s2 < ?b |- _ =>
        apply (Qlt_irrefl s2);
        apply (Qlt_le_trans _ b); [exact Hi|];
        apply (Qle_trans _ a); [discriminate|];
        apply (Qle_trans _ s1); assumption
    end.
Qed.

End ScorerFacts.

(** ** A submission that goes through *)

Module CreationFacts.
Import Props More StringFacts HandlerFacts.

(** When the title is visible, the clock usable and the scoring answer
    readable, the submission sends the scoring request and then the
    creation request; and when that one succeeds too, the server's answer
    is handed to the task list, once. *)
Lemma submit_creates (h : Host) (f : Flow) (answer p ps : value) :
  blank (title (formOf f)) = false ->
  (deadline (formOf f) <> []
   \/ (validTime (Date_now h 0 + sevenDays) = true
       /\ validTime (Date_now h 1 + sevenDays) = true)) ->
  exchange (fetch h (scoringRequestOf h (formOf f))) = Ok answer ->
  getProp answer (lit "priority") = Ok p ->
  getProp answer (lit "priority_score") = Ok ps ->
  exists rest,
    eventsOf h f
    = EFetch (scoringRequestOf h (formOf f))
      :: EFetch (creationRequestOf h (formOf f) p ps (heldSuggestions f))
      :: rest
    /\ (forall created,
          exchange (fetch h (creationRequestOf h (formOf f) p ps
                               (heldSuggestions f))) = Ok created ->
          dispatched (eventsOf h f) = [created]).
Proof.
  intros B V X P S.
  unfold scoringRequestOf, creationRequestOf, creationDataOf, deadlineAt,
    heldSuggestions, sevenDays in *.
  destruct f as [[scf ic igs [t d c dl] ai] | [il igs [t d c dl] ai]];
    reduce; exec_submit B.
  all: try (destruct V as [V | [V1 V2]];
            [ apply str_truthy_false in D; contradiction
            | exfalso;
              match goal with
              | T : toISODate ?t = Throw ?e |- _ =>
                  apply (toISODate_valid t e); [assumption | exact T]
              end ]).
  all: repeat match goal with
              | T : toISODate _ = Ok _ |- _ => apply toISODate_value in T; subst
              end.
  all: repeat match goal with
              | X : Ok _ = Ok _ |- _ => injection X as X; subst
              | X : Throw _ = Ok _ |- _ => discriminate X
              | H1 : ?l = Throw _, H2 : ?l = Ok _ |- _ =>
                  rewrite H1 in H2; discriminate H2
              | H1 : ?l = Ok ?x, H2 : ?l = Ok ?y |- _ =>
                  lazymatch x with
                  | y => fail
                  | _ => rewrite H1 in H2; injection H2 as H2; subst
                  end
              end.
  all: eexists; (split; [reflexivity|]); intros created C;
    repeat match goal with
           | H1 : ?l = Throw _, H2 : ?l = Ok _ |- _ =>
               rewrite H1 in H2; discriminate H2
           | H1 : ?l = Ok ?x, H2 : ?l = Ok ?y |- _ =>
               lazymatch x with
               | y => fail
               | _ => rewrite H1 in H2; injection H2 as H2; subst
               end
           end; try reflexivity.
Qed.

End CreationFacts.

(** * The claims *)

Import Props.

(** C1. A submission whose title is empty or whitespace-only is rejected
    with the "Title Required" validation toast and nothing else happens:
    the component is left as it was, no request is sent (so no priority is
    calculated and no task is created) and no task is added to the list.
    This holds for both creation flows. *)
Theorem blank_title_is_rejected (h : Host) (f : Flow) :
  blank (title (formOf f)) = true ->
  submit h f = (Ok tt, f, [EToast titleRequired])
  /\ noRequest (eventsOf h f)
  /\ noTaskAdded (eventsOf h f).
Proof.
  intros B. unfold eventsOf. rewrite (HandlerFacts.submit_blank_title h f B).
  split; [reflexivity|]. split; intros x [E | []]; discriminate E.
Qed.

Lemma blank_title_is_rejected_witness :
  blank (title (formOf (ViaQuickAdd (Demo.quick Demo.blankForm)))) = true
  /\ submit Demo.online (ViaQuickAdd (Demo.quick Demo.blankForm))
     = (Ok tt, ViaQuickAdd (Demo.quick Demo.blankForm), [EToast titleRequired])
  /\ noRequest (eventsOf Demo.online (ViaQuickAdd (Demo.quick Demo.blankForm)))
  /\ noTaskAdded (eventsOf Demo.online (ViaQuickAdd (Demo.quick Demo.blankForm))).
Proof.
  split; [reflexivity|].
  apply (blank_title_is_rejected Demo.online (ViaQuickAdd (Demo.quick Demo.blankForm))).
  reflexivity.
Defined.




(** C3, as the code has it.  With no deadline in the form and a usable
    clock, the scoring request carries the default deadline, the date seven
    days after the first reading of the clock; and every creation request
    carries a default deadline too, the date seven days after the second
    reading of the clock, never an absent one. *)
Theorem default_deadline_reaches_scoring_and_task (h : Host) (f : Flow) :
  blank (title (formOf f)) = false ->
  deadline (formOf f) = [] ->
  validTime (Date_now h 0 + sevenDays) = true ->
  (exists req td rest,
      eventsOf h f = EFetch req :: rest
      /\ isScoringRequest h req td
      /\ lookup (lit "deadline") td
         = VStr (isoDate (Date_now h 0 + sevenDays)))
  /\ (forall req td,
        In (EFetch req) (eventsOf h f) ->
        isCreateRequest h req td ->
        lookup (lit "deadline") td
        = VStr (isoDate (Date_now h 1 + sevenDays))
        /\ isoDate (Date_now h 1 + sevenDays) <> []).
Proof.
  intros B D V. split.
  - destruct (HandlerFacts.submit_first_scores h f B (or_intror V))
      as (req & rest & E & S).
    rewrite D in S. exists req. eexists. exists rest.
    split; [exact E|]. split; [exact S | reflexivity].
  - intros req td I [U [_ Bd]].
    destruct (HandlerFacts.submit_requests h f req B I)
      as [(d & U' & _) | (p & ps & ai & _ & _ & Bd')].
    + rewrite U in U'. symmetry in U'.
      destruct (HandlerFacts.endpoints_differ _ U').
    + rewrite Bd in Bd'. injection Bd' as ->. rewrite D.
      split; [reflexivity | apply StringFacts.isoDate_not_empty].
Qed.

Lemma default_deadline_reaches_scoring_and_task_witness :
  blank (title (formOf (ViaQuickAdd (Demo.quick Demo.rentForm)))) = false
  /\ deadline (formOf (ViaQuickAdd (Demo.quick Demo.rentForm))) = []
  /\ validTime (Date_now Demo.online 0 + sevenDays) = true
  /\ lookup (lit "deadline") Demo.rentTaskData = VStr (lit "2024-11-09").
Proof.
  split; [reflexivity|]. split; [reflexivity|]. split; [reflexivity|].
  destruct (default_deadline_reaches_scoring_and_task
              Demo.online (ViaQuickAdd (Demo.quick Demo.rentForm)))
    as [_ C]; [reflexivity | reflexivity | reflexivity |].
  destruct (C Demo.rentCreateRequest Demo.rentTaskData) as [L _].
  - vm_compute. right. left. reflexivity.
  - repeat split.
  - rewrite L. reflexivity.
Defined.

(** C3 as stated fails: a form without a deadline, submitted on
    2024-11-02, makes the dialog send a task whose deadline is 2024-11-09,
    not a task without one. *)
Lemma created_task_gets_default_deadline :
  deadline Demo.rentForm = []
  /\ In (EFetch Demo.rentCreateRequest)
        (eventsOf Demo.online (ViaQuickAdd (Demo.quick Demo.rentForm)))
  /\ In (EFetch Demo.rentCreateRequest)
        (eventsOf Demo.online (ViaTaskManager (Demo.manager Demo.rentForm)))
  /\ lookup (lit "deadline") Demo.rentTaskData = VStr (lit "2024-11-09").
Proof.
  split; [reflexivity|].
  split; [vm_compute; right; left; reflexivity|].
  split; [vm_compute; right; left; reflexivity | reflexivity].
Qed.

(** C7. When the form names no category, the scoring request is sent with
    the category "Personal": the submission starts with such a request,
    and no scoring request of the submission carries anything else.  This
    holds for both creation flows. *)
Theorem scoring_category_defaults_to_personal (h : Host) (f : Flow) :
  blank (title (formOf f)) = false ->
  category (formOf f) = [] ->
  (deadline (formOf f) <> [] \/ validTime (Date_now h 0 + sevenDays) = true) ->
  (exists req td rest,
      eventsOf h f = EFetch req :: rest
      /\ isScoringRequest h req td
      /\ lookup (lit "category_id") td = VStr (lit "Personal"))
  /\ (forall req td,
        In (EFetch req) (eventsOf h f) ->
        isScoringRequest h req td ->
        lookup (lit "category_id") td = VStr (lit "Personal")).
Proof.
  intros B C V. split.
  - destruct (HandlerFacts.submit_first_scores h f B V) as (req & rest & E & S).
    rewrite C in S. exists req. eexists. exists rest.
    split; [exact E|]. split; [exact S | reflexivity].
  - intros req td I [U Bd].
    destruct (HandlerFacts.submit_requests h f req B I)
      as [(d & _ & Bd') | (p & ps & ai & U' & _)].
    + rewrite Bd in Bd'. injection Bd' as ->. rewrite C. reflexivity.
    + rewrite U in U'. destruct (HandlerFacts.endpoints_differ _ U').
Qed.

Lemma scoring_category_defaults_to_personal_witness :
  blank (title (formOf (ViaTaskManager (Demo.manager Demo.rentForm)))) = false
  /\ category (formOf (ViaTaskManager (Demo.manager Demo.rentForm))) = []
  /\ validTime (Date_now Demo.online 0 + sevenDays) = true
  /\ lookup (lit "category_id") Demo.rentScoringData = VStr (lit "Personal").
Proof.
  split; [reflexivity|]. split; [reflexivity|]. split; [reflexivity|].
  destruct (scoring_category_defaults_to_personal
              Demo.online (ViaTaskManager (Demo.manager Demo.rentForm)))
    as [_ C]; [reflexivity | reflexivity | right; reflexivity |].
  apply (C Demo.rentScoringRequest Demo.rentScoringData).
  - vm_compute. left. reflexivity.
  - split; reflexivity.
Defined.

(** C10. Both creation flows create their tasks with status 'todo' and
    with the form's title and description trimmed.  Every task that a
    submission sends to [createTask] has these three fields, and nothing
    blank is left at either end of the two texts.  And a task is sent:
    when the title is visible, the clock usable and the scoring answer
    readable, the submission sends the scoring request and then the
    creation request with that task, and when the server accepts it, its
    answer is handed to the task list, once. *)
Theorem submitted_tasks_are_todo_and_trimmed (h : Host) (f : Flow) :
  (forall req td,
      In (EFetch req) (eventsOf h f) ->
      isCreateRequest h req td ->
      lookup (lit "status") td = VStr (lit "todo")
      /\ lookup (lit "title") td = VStr (trim (title (formOf f)))
      /\ lookup (lit "description") td = VStr (trim (description (formOf f)))
      /\ trimmed (trim (title (formOf f))) = true
      /\ trimmed (trim (description (formOf f))) = true)
  /\ (forall answer p ps,
        blank (title (formOf f)) = false ->
        (deadline (formOf f) <> []
         \/ (validTime (Date_now h 0 + sevenDays) = true
             /\ validTime (Date_now h 1 + sevenDays) = true)) ->
        exchange (fetch h (More.scoringRequestOf h (formOf f))) = Ok answer ->
        getProp answer (lit "priority") = Ok p ->
        getProp answer (lit "priority_score") = Ok ps ->
        exists rest,
          eventsOf h f
          = EFetch (More.scoringRequestOf h (formOf f))
            :: EFetch (More.creationRequestOf h (formOf f) p ps
                         (More.heldSuggestions f))
            :: rest
          /\ isCreateRequest h
               (More.creationRequestOf h (formOf f) p ps (More.heldSuggestions f))
               (More.creationDataOf h (formOf f) p ps (More.heldSuggestions f))
          /\ lookup (lit "status")
               (More.creationDataOf h (formOf f) p ps (More.heldSuggestions f))
             = VStr (lit "todo")
          /\ lookup (lit "title")
               (More.creationDataOf h (formOf f) p ps (More.heldSuggestions f))
             = VStr (trim (title (formOf f)))
          /\ lookup (lit "description")
               (More.creationDataOf h (formOf f) p ps (More.heldSuggestions f))
             = VStr (trim (description (formOf f)))
          /\ (forall created,
                exchange (fetch h (More.creationRequestOf h (formOf f) p ps
                                     (More.heldSuggestions f))) = Ok created ->
                More.dispatched (eventsOf h f) = [created])).
Proof.
  split.
  - intros req td I [U [_ Bd]].
    destruct (blank (title (formOf f))) eqn:B.
    + unfold eventsOf in I. rewrite (HandlerFacts.submit_blank_title h f B) in I.
      destruct I as [E | []]. discriminate E.
    + destruct (HandlerFacts.submit_requests h f req B I)
        as [(d & U' & _) | (p & ps & ai & _ & _ & Bd')].
      * rewrite U in U'. symmetry in U'.
        destruct (HandlerFacts.endpoints_differ _ U').
      * rewrite Bd in Bd'. injection Bd' as ->.
        repeat split; try reflexivity; apply StringFacts.trim_spec.
  - intros answer p ps B V X P S.
    destruct (CreationFacts.submit_creates h f answer p ps B V X P S)
      as (rest & E & D).
    exists rest. split; [exact E|]. split; [repeat split|].
    repeat (split; [reflexivity|]). exact D.
Qed.

Lemma submitted_tasks_are_todo_and_trimmed_witness :
  (In (EFetch Demo.rentCreateRequest)
      (eventsOf Demo.online (ViaTaskManager (Demo.manager Demo.rentForm)))
   /\ More.dispatched
        (eventsOf Demo.online (ViaTaskManager (Demo.manager Demo.rentForm)))
      = [Demo.createdTask])
  /\ (In (EFetch Demo.rentCreateRequest)
         (eventsOf Demo.online (ViaQuickAdd (Demo.quick Demo.rentForm)))
      /\ More.dispatched
           (eventsOf Demo.online (ViaQuickAdd (Demo.quick Demo.rentForm)))
         = [Demo.createdTask])
  /\ isCreateRequest Demo.online Demo.rentCreateRequest Demo.rentTaskData
  /\ lookup (lit "status") Demo.rentTaskData = VStr (lit "todo")
  /\ lookup (lit "title") Demo.rentTaskData = VStr (lit "Pay rent")
  /\ lookup (lit "description") Demo.rentTaskData = VStr (lit "before the 5th").
Proof.
  destruct (submitted_tasks_are_todo_and_trimmed Demo.online
              (ViaTaskManager (Demo.manager Demo.rentForm))) as [_ Sent1].
  destruct (Sent1 Demo.scoringAnswer (VStr (lit "high")) (VNum 0.6))
    as (rest1 & E1 & _ & _ & _ & _ & D1);
    [ reflexivity | right; split; reflexivity
    | reflexivity | reflexivity | reflexivity |].
  destruct (submitted_tasks_are_todo_and_trimmed Demo.online
              (ViaQuickAdd (Demo.quick Demo.rentForm))) as [Fields Sent2].
  destruct (Sent2 Demo.scoringAnswer (VStr (lit "high")) (VNum 0.6))
    as (rest2 & E2 & _ & _ & _ & _ & D2);
    [ reflexivity | right; split; reflexivity
    | reflexivity | reflexivity | reflexivity |].
  assert (I2 : In (EFetch Demo.rentCreateRequest)
                  (eventsOf Demo.online (ViaQuickAdd (Demo.quick Demo.rentForm)))).
  { rewrite E2. right. left. reflexivity. }
  assert (R : isCreateRequest Demo.online Demo.rentCreateRequest Demo.rentTaskData).
  { repeat split. }
  split.
  { split; [rewrite E1; right; left; reflexivity | apply D1; reflexivity]. }
  split.
  { split; [exact I2 | apply D2; reflexivity]. }
  split; [exact R|].
  destruct (Fields Demo.rentCreateRequest Demo.rentTaskData I2 R)
    as (S & T & D & _).
  split; [exact S|]. split; [exact T | exact D].
Defined.

(** C4, as the code has it.  The task card derives its overdue mark from
    the task's deadline and status alone (a deadline is present, it parses
    to a time before now, and the status is not completed), whatever the
    stored flag says; the Task record also carries a stored [is_overdue]
    flag, and the dashboard's overdue count is the number of tasks whose
    stored flag is set, whatever their deadline and status. *)
Theorem overdue_derived_on_card_stored_on_dashboard
        (h : Host) (today : Z) (task : TaskContext.Task)
        (state : TaskContext.TaskState) :
  TaskCard.isOverdue h today task
  = match TaskContext.deadline task with
    | Some d => str_truthy d
                && derivedOverdue (Date_parse h d) today (TaskContext.status task)
    | None => false
    end
  /\ (forall other,
        TaskContext.deadline other = TaskContext.deadline task ->
        TaskContext.status other = TaskContext.status task ->
        TaskCard.isOverdue h today other = TaskCard.isOverdue h today task)
  /\ Dashboard.overdue (Dashboard.stats state)
     = count_occ bool_dec
         (map TaskContext.is_overdue (TaskContext.tasks state)) true
  /\ (forall state',
        map TaskContext.is_overdue (TaskContext.tasks state')
        = map TaskContext.is_overdue (TaskContext.tasks state) ->
        Dashboard.overdue (Dashboard.stats state')
        = Dashboard.overdue (Dashboard.stats state)).
Proof.
  split; [apply ContextFacts.isOverdue_derived|].
  split.
  { intros other D S. rewrite !ContextFacts.isOverdue_derived, D, S. reflexivity. }
  split; [apply ContextFacts.overdue_counts_flags|].
  intros state' E. unfold Dashboard.stats, Dashboard.overdue.
  rewrite !ContextFacts.overdue_counts_flags, E. reflexivity.
Qed.

Lemma overdue_derived_on_card_stored_on_dashboard_witness :
  TaskContext.deadline Demo.lateTaskFlagged = TaskContext.deadline Demo.lateTask
  /\ TaskContext.status Demo.lateTaskFlagged = TaskContext.status Demo.lateTask
  /\ TaskCard.isOverdue Demo.calendar 1730505600000 Demo.lateTaskFlagged
     = TaskCard.isOverdue Demo.calendar 1730505600000 Demo.lateTask
  /\ Dashboard.overdue (Dashboard.stats (Demo.board [Demo.lateTask; Demo.doneTask]))
     = 1%nat.
Proof.
  destruct (overdue_derived_on_card_stored_on_dashboard
              Demo.calendar 1730505600000 Demo.lateTask
              (Demo.board [Demo.lateTask; Demo.doneTask]))
    as (_ & Same & Count & _).
  split; [reflexivity|]. split; [reflexivity|].
  split; [apply Same; reflexivity | rewrite Count; reflexivity].
Defined.

(** C4 as stated fails: the stored flag and the derived value differ, and
    the stored flag is what the dashboard reads.  A task due a month ago
    and still to do, not flagged by the server, is overdue on its card and
    absent from the dashboard's count; a completed task without a deadline
    that the server flags is not overdue on its card and is counted. *)
Lemma stored_overdue_flag_is_read :
  TaskCard.isOverdue Demo.calendar 1730505600000 Demo.lateTask = true
  /\ TaskContext.is_overdue Demo.lateTask = false
  /\ Dashboard.overdue (Dashboard.stats (Demo.board [Demo.lateTask])) = 0%nat
  /\ TaskCard.isOverdue Demo.calendar 1730505600000 Demo.doneTask = false
  /\ TaskContext.is_overdue Demo.doneTask = true
  /\ Dashboard.overdue (Dashboard.stats (Demo.board [Demo.doneTask])) = 1%nat.
Proof. repeat split. Qed.

(** C5.  The label of a scoring result is fixed by its score through the
    thresholds 0.75, 0.5 and 0.25, so that a result with a score at least
    as high never has a lower label, and a higher label means a strictly
    higher score. *)
Theorem label_follows_score_thresholds (t1 t2 : PriorityScorer.Terms) :
  let r1 := PriorityScorer.result t1 in
  let r2 := PriorityScorer.result t2 in
  match PriorityScorer.result_priority r1 with
  | TaskContext.urgent => 0.75 <= PriorityScorer.result_score r1
  | TaskContext.high =>
      0.5 <= PriorityScorer.result_score r1 /\ PriorityScorer.result_score r1 < 0.75
  | TaskContext.medium =>
      0.25 <= PriorityScorer.result_score r1 /\ PriorityScorer.result_score r1 < 0.5
  | TaskContext.low => PriorityScorer.result_score r1 < 0.25
  end
  /\ (PriorityScorer.result_score r1 <= PriorityScorer.result_score r2 ->
      (PriorityScorer.rank (PriorityScorer.result_priority r1)
       <= PriorityScorer.rank (PriorityScorer.result_priority r2))%nat)
  /\ ((PriorityScorer.rank (PriorityScorer.result_priority r1)
       < PriorityScorer.rank (PriorityScorer.result_priority r2))%nat ->
      PriorityScorer.result_score r1 < PriorityScorer.result_score r2).
Proof.
  cbn zeta. unfold PriorityScorer.result. cbn [PriorityScorer.result_priority PriorityScorer.result_score].
  split; [apply ScorerFacts.labelOf_bands|].
  split; [apply ScorerFacts.labelOf_monotone|].
  intros R. apply Qnot_le_lt. intros L.
  apply ScorerFacts.labelOf_monotone in L. lia.
Qed.

Lemma label_follows_score_thresholds_witness :
  PriorityScorer.result_score (PriorityScorer.result Demo.relaxed)
  <= PriorityScorer.result_score (PriorityScorer.result Demo.pressing)
  /\ PriorityScorer.result_priority (PriorityScorer.result Demo.relaxed)
     = TaskContext.medium
  /\ PriorityScorer.result_priority (PriorityScorer.result Demo.pressing)
     = TaskContext.urgent
  /\ (PriorityScorer.rank (PriorityScorer.result_priority (PriorityScorer.result Demo.relaxed))
      <= PriorityScorer.rank (PriorityScorer.result_priority (PriorityScorer.result Demo.pressing)))%nat.
Proof.
  assert (L : PriorityScorer.result_score (PriorityScorer.result Demo.relaxed)
              <= PriorityScorer.result_score (PriorityScorer.result Demo.pressing)).
  { vm_compute. discriminate. }
  split; [exact L|]. split; [reflexivity|]. split; [reflexivity|].
  destruct (label_follows_score_thresholds Demo.relaxed Demo.pressing) as (_ & M & _).
  exact (M L).
Defined.

(** C6.  Aggregating no tasks and no contexts gives productivity 0,
    burnout 0, no focus area and no recommendation; [aggregate] is a total
    function, so there is no error to raise. *)
Theorem aggregate_of_nothing (midWeight : Q) (today : Z) :
  InsightAggregator.aggregate midWeight today [] []
  = {| InsightAggregator.productivity := 0;
       InsightAggregator.burnout := 0;
       InsightAggregator.focus := [];
       InsightAggregator.recommendations := [] |}.
Proof. reflexivity. Qed.

(** C8, as the code has it.  When the server answers with a JSON value
    whose [results] field is absent, falsy or an array, each of the three
    fetchers returns an array: that [results] array if there is one,
    otherwise the response itself when it is an array, otherwise the empty
    array. *)
Theorem fetchers_return_arrays_for_listed_pages
        (h : Host) (params : option (list (jsstring * option jsstring)))
        (response : value) :
  answersEveryGet h response ->
  truthy (resultsField response) = false
  \/ isArray (resultsField response) = true ->
  exists items,
    fst (run (ApiService.getTasks params) h tt) = Ok (VArr items)
    /\ fst (run ApiService.getCategories h tt) = Ok (VArr items)
    /\ fst (run ApiService.getContexts h tt) = Ok (VArr items)
    /\ VArr items
       = (if isArray (resultsField response) then resultsField response
          else if isArray response then response else VArr []).
Proof.
  intros A S.
  rewrite (HandlerFacts.getTasks_run h response params A),
    (HandlerFacts.getCategories_run h response A),
    (HandlerFacts.getContexts_run h response A).
  destruct S as [F | R].
  - rewrite F.
    assert (N : isArray (resultsField response) = false).
    { destruct (resultsField response); try reflexivity. discriminate F. }
    rewrite N. destruct response; cbn [isArray]; eauto.
  - rewrite R. destruct (resultsField response); try discriminate R.
    cbn [truthy]. eauto.
Qed.

Lemma fetchers_return_arrays_for_listed_pages_witness :
  answersEveryGet Demo.paging Demo.page
  /\ isArray (resultsField Demo.page) = true
  /\ fst (run (ApiService.getTasks None) Demo.paging tt)
     = Ok (VArr [Demo.createdTask])
  /\ fst (run ApiService.getCategories Demo.paging tt)
     = Ok (VArr [Demo.createdTask])
  /\ fst (run ApiService.getContexts Demo.paging tt)
     = Ok (VArr [Demo.createdTask]).
Proof.
  assert (A : answersEveryGet Demo.paging Demo.page).
  { intros u. exists 200%Z. reflexivity. }
  split; [exact A|]. split; [reflexivity|].
  destruct (fetchers_return_arrays_for_listed_pages Demo.paging None Demo.page A)
    as (items & T & C & X & E); [right; reflexivity|].
  injection E as ->. split; [exact T|]. split; [exact C | exact X].
Defined.

(** C8 as stated fails: when the server's [results] field holds the
    number 1, each fetcher returns that number, not an array. *)
Lemma fetchers_can_return_non_array :
  fst (run (ApiService.getTasks None) Demo.odd tt) = Ok (VNum 1)
  /\ fst (run ApiService.getCategories Demo.odd tt) = Ok (VNum 1)
  /\ fst (run ApiService.getContexts Demo.odd tt) = Ok (VNum 1)
  /\ isArray (VNum 1) = false.
Proof. repeat split. Qed.

(** C9.  DELETE_TASK leaves contexts, categories, loading and error as
    they were, and the new task list is the old one without the tasks
    whose id is the payload, the others kept in order; no other list fits
    that description. *)
Theorem delete_task_frame (state : TaskContext.TaskState) (payload : jsstring) :
  let state' := TaskContext.taskReducer state (TaskContext.DELETE_TASK payload) in
  TaskContext.contexts state' = TaskContext.contexts state
  /\ TaskContext.categories state' = TaskContext.categories state
  /\ TaskContext.loading state' = TaskContext.loading state
  /\ TaskContext.error state' = TaskContext.error state
  /\ RemovedById payload (TaskContext.tasks state) (TaskContext.tasks state')
  /\ (forall l, RemovedById payload (TaskContext.tasks state) l ->
                l = TaskContext.tasks state').
Proof.
  cbn. repeat (split; [reflexivity|]).
  split; [apply ContextFacts.filter_removes|].
  intros l R. eapply ContextFacts.RemovedById_functional; [exact R|].
  apply ContextFacts.filter_removes.
Qed.

Lemma delete_task_frame_witness :
  RemovedById (lit "b") Demo.fourTasks
    [Demo.task (lit "a") None TaskContext.todo false;
     Demo.task (lit "c") None TaskContext.todo false]
  /\ [Demo.task (lit "a") None TaskContext.todo false;
      Demo.task (lit "c") None TaskContext.todo false]
     = TaskContext.tasks
         (TaskContext.taskReducer (Demo.board Demo.fourTasks)
            (TaskContext.DELETE_TASK (lit "b"))).
Proof.
  assert (R : RemovedById (lit "b") Demo.fourTasks
                [Demo.task (lit "a") None TaskContext.todo false;
                 Demo.task (lit "c") None TaskContext.todo false]).
  { apply removed_keep; [discriminate|].
    apply removed_drop; [reflexivity|].
    apply removed_keep; [discriminate|].
    apply removed_drop; [reflexivity|].
    apply removed_nil. }
  split; [exact R|].
  destruct (delete_task_frame (Demo.board Demo.fourTasks) (lit "b"))
    as (_ & _ & _ & _ & _ & Only).
  exact (Only _ R).
Defined.

(** ** Checks on concrete inputs *)

Example isoDate_epoch : isoDate 0 = lit "1970-01-01".
Proof. reflexivity. Qed.

Example isoDate_leap_day : isoDate 951782400000 = lit "2000-02-29".
Proof. reflexivity. Qed.

Example isoDate_during_day : isoDate 1730505600123 = lit "2024-11-02".
Proof. reflexivity. Qed.

Example isoDate_before_epoch : isoDate (-1) = lit "1969-12-31".
Proof. reflexivity. Qed.

Example trim_both_ends : trim (lit "  Pay rent ") = lit "Pay rent".
Proof. reflexivity. Qed.

Example delete_middle :
  map TaskContext.id
    (TaskContext.tasks
       (TaskContext.taskReducer
          (Demo.board Demo.fourTasks)
          (TaskContext.DELETE_TASK (lit "b"))))
  = [lit "a"; lit "c"].
Proof. reflexivity. Qed.

Example labels_at_thresholds :
  map PriorityScorer.labelOf [1; 0.75; 0.74; 0.5; 0.49; 0.25; 0.24; 0]
  = [TaskContext.urgent; TaskContext.urgent; TaskContext.high; TaskContext.high;
     TaskContext.medium; TaskContext.medium; TaskContext.low; TaskContext.low].
Proof. reflexivity. Qed.

Example falsy_results_fall_through :
  fst (run ApiService.getCategories
         {| NEXT_PUBLIC_API_URL := None;
            fetch := fun _ => Resolved {| ok := true; status := 200;
                                          json := Some (VObj [(lit "results", VNull)]) |};
            Date_now := fun _ => 0%Z;
            URLSearchParams_toString := fun _ => [];
            Date_parse := fun _ => None |} tt)
  = Ok (VArr []).
Proof. reflexivity. Qed.

(** A whole successful submission through the quick-add dialog. *)
Example quick_add_creates_task :
  submit Demo.online (ViaQuickAdd (Demo.quick Demo.rentForm))
  = (Ok tt,
     ViaQuickAdd (Demo.quick emptyForm),
     [EFetch Demo.rentScoringRequest;
      EFetch Demo.rentCreateRequest;
      EDispatchAddTask Demo.createdTask;
      EOnOpenChange false;
      EToast {| UI.title := lit "Task Created! " ++ party;
                UI.description :=
                  Template (lit "Your new task has been added with AI priority: ")
                           (VStr (lit "high"));
                UI.variant := Default |}]).
Proof. reflexivity. Qed.

(** Without network the submission stops after the scoring request. *)
Example offline_submission_fails :
  submit Demo.offline (ViaTaskManager (Demo.manager Demo.rentForm))
  = (Ok tt,
     ViaTaskManager (Demo.manager Demo.rentForm),
     [EFetch Demo.rentScoringRequest;
      EConsoleError (lit "API request failed:") (FetchFailed (lit "Failed to fetch"));
      EConsoleError (lit "Task creation error:") (FetchFailed (lit "Failed to fetch"));
      EToast {| UI.title := lit "Error";
                UI.description := Plain (lit "Failed to create task");
                UI.variant := Destructive |}]).
Proof. reflexivity. Qed.

(** A scoring answer of [null] makes the read of its priority throw. *)
Example null_scoring_answer :
  eventsOf {| NEXT_PUBLIC_API_URL := None;
              fetch := fun _ => Resolved {| ok := true; status := 200;
                                            json := Some VNull |};
              Date_now := fun _ => 1730505600000%Z;
              URLSearchParams_toString := fun _ => [];
              Date_parse := fun _ => None |}
           (ViaQuickAdd (Demo.quick Demo.rentForm))
  = [EFetch Demo.rentScoringRequest;
     EConsoleError (lit "Task creation error:") TypeError;
     EToast {| UI.title := lit "Error";
               UI.description := Plain (lit "Failed to create task");
               UI.variant := Destructive |}].
Proof. reflexivity. Qed.

(** * Further properties of the code *)

From Stdlib Require Import Permutation Sorted.

(** ** The reducer *)

Module ReducerFacts.
Import TaskContext More StringFacts.

Lemma update_replaces (payload : Task) (l : list Task) :
  Forall2 (Replaced payload) l
    (map (fun task => if str_eqb (id task) (id payload) then payload else task) l).
Proof.
  induction l as [|t l IH]; simpl; constructor; [|exact IH].
  destruct (str_eqb (id t) (id payload)) eqn:E.
  - left. split; [apply str_eqb_eq; exact E | reflexivity].
  - right. split; [apply str_eqb_neq; exact E | reflexivity].
Qed.

Lemma filter_fresh (p : jsstring) (l : list Task) :
  (forall t, In t l -> id t <> p) ->
  filter (fun task => negb (str_eqb (id task) p)) l = l.
Proof.
  induction l as [|t l IH]; simpl; intros F; [reflexivity|].
  assert (E : str_eqb (id t) p = false) by (apply str_eqb_neq, F; left; reflexivity).
  rewrite E. simpl. f_equal. apply IH. intros u I. apply F. right. exact I.
Qed.

Lemma filter_swap (A : Type) (f g : A -> bool) (l : list A) :
  filter f (filter g l) = filter g (filter f l).
Proof.
  induction l as [|x l IH]; simpl; [reflexivity|].
  destruct (f x) eqn:F, (g x) eqn:G; simpl; rewrite ?F, ?G, IH; reflexivity.
Qed.

Lemma filter_twice (A : Type) (f : A -> bool) (l : list A) :
  filter f (filter f l) = filter f l.
Proof.
  induction l as [|x l IH]; simpl; [reflexivity|].
  destruct (f x) eqn:F; simpl; rewrite ?F, IH; reflexivity.
Qed.

End ReducerFacts.

(** UPDATE_TASK puts the payload in the place of every task that has its
    id and leaves every other task where it is: the list keeps its length,
    its order and its ids, and so do contexts, categories, loading and
    error. *)
Theorem update_task_replaces_in_place
        (state : TaskContext.TaskState) (payload : TaskContext.Task) :
  let state' := TaskContext.taskReducer state (TaskContext.UPDATE_TASK payload) in
  Forall2 (More.Replaced payload) (TaskContext.tasks state) (TaskContext.tasks state')
  /\ map TaskContext.id (TaskContext.tasks state')
     = map TaskContext.id (TaskContext.tasks state)
  /\ TaskContext.contexts state' = TaskContext.contexts state
  /\ TaskContext.categories state' = TaskContext.categories state
  /\ TaskContext.loading state' = TaskContext.loading state
  /\ TaskContext.error state' = TaskContext.error state.
Proof.
  cbn. split; [apply ReducerFacts.update_replaces|].
  split; [|repeat split].
  pose proof (ReducerFacts.update_replaces payload (TaskContext.tasks state)) as R.
  induction R as [|old new l l' [[E ->] | [_ ->]] _ IH]; simpl; [reflexivity | |];
    rewrite IH; congruence.
Qed.

(** Updating a task whose id is not in the list changes nothing. *)
Theorem update_of_unknown_task_changes_nothing
        (state : TaskContext.TaskState) (payload : TaskContext.Task) :
  (forall t, In t (TaskContext.tasks state) ->
             TaskContext.id t <> TaskContext.id payload) ->
  TaskContext.taskReducer state (TaskContext.UPDATE_TASK payload) = state.
Proof.
  intros F. destruct state as [ts cx cs ld er]. cbn in *. f_equal.
  induction ts as [|t ts IH]; simpl; [reflexivity|].
  assert (E : str_eqb (TaskContext.id t) (TaskContext.id payload) = false)
    by (apply StringFacts.str_eqb_neq, F; left; reflexivity).
  rewrite E. f_equal. apply IH. intros u I. apply F. right. exact I.
Qed.

Lemma update_of_unknown_task_changes_nothing_witness :
  (forall t, In t (TaskContext.tasks (Demo.board [Demo.doneTask])) ->
             TaskContext.id t <> TaskContext.id Demo.lateTask)
  /\ TaskContext.taskReducer (Demo.board [Demo.doneTask])
       (TaskContext.UPDATE_TASK Demo.lateTask)
     = Demo.board [Demo.doneTask].
Proof.
  assert (F : forall t, In t (TaskContext.tasks (Demo.board [Demo.doneTask])) ->
                        TaskContext.id t <> TaskContext.id Demo.lateTask).
  { intros t [<- | []]. discriminate. }
  split; [exact F|].
  apply (update_of_unknown_task_changes_nothing
           (Demo.board [Demo.doneTask]) Demo.lateTask F).
Defined.

(** Adding a task whose id is new and then deleting that id gives back
    the state as it was. *)
Theorem add_then_delete_restores
        (state : TaskContext.TaskState) (payload : TaskContext.Task) :
  (forall t, In t (TaskContext.tasks state) ->
             TaskContext.id t <> TaskContext.id payload) ->
  TaskContext.taskReducer
    (TaskContext.taskReducer state (TaskContext.ADD_TASK payload))
    (TaskContext.DELETE_TASK (TaskContext.id payload))
  = state.
Proof.
  intros F. destruct state as [ts cx cs ld er]. cbn in *. f_equal.
  rewrite filter_app. simpl.
  rewrite StringFacts.str_eqb_refl. simpl. rewrite app_nil_r.
  apply ReducerFacts.filter_fresh. exact F.
Qed.

Lemma add_then_delete_restores_witness :
  (forall t, In t (TaskContext.tasks (Demo.board [Demo.doneTask])) ->
             TaskContext.id t <> TaskContext.id Demo.lateTask)
  /\ TaskContext.taskReducer
       (TaskContext.taskReducer (Demo.board [Demo.doneTask])
          (TaskContext.ADD_TASK Demo.lateTask))
       (TaskContext.DELETE_TASK (lit "a"))
     = Demo.board [Demo.doneTask].
Proof.
  assert (F : forall t, In t (TaskContext.tasks (Demo.board [Demo.doneTask])) ->
                        TaskContext.id t <> TaskContext.id Demo.lateTask).
  { intros t [<- | []]. discriminate. }
  split; [exact F|].
  apply (add_then_delete_restores (Demo.board [Demo.doneTask]) Demo.lateTask F).
Defined.

(** Deleting the same id twice is deleting it once, and two deletions
    give the same state in either order. *)
Theorem deletions_commute_and_repeat
        (state : TaskContext.TaskState) (a b : jsstring) :
  TaskContext.taskReducer
    (TaskContext.taskReducer state (TaskContext.DELETE_TASK a))
    (TaskContext.DELETE_TASK a)
  = TaskContext.taskReducer state (TaskContext.DELETE_TASK a)
  /\ TaskContext.taskReducer
       (TaskContext.taskReducer state (TaskContext.DELETE_TASK a))
       (TaskContext.DELETE_TASK b)
     = TaskContext.taskReducer
         (TaskContext.taskReducer state (TaskContext.DELETE_TASK b))
         (TaskContext.DELETE_TASK a).
Proof.
  destruct state as [ts cx cs ld er]. cbn. split; f_equal.
  - apply ReducerFacts.filter_twice.
  - apply ReducerFacts.filter_swap.
Qed.

(** ** The tabs of the task manager *)

Module TabFacts.
Import TaskContext TaskManagerTabs More.

Lemma insertByScore_perm (x : Task) (l : list Task) :
  Permutation (insertByScore x l) (x :: l).
Proof.
  induction l as [|y l IH]; simpl; [apply Permutation_refl|].
  destruct (Qle_bool (priority_score y) (priority_score x)).
  - apply Permutation_refl.
  - apply perm_trans with (y :: x :: l); [apply perm_skip, IH | apply perm_swap].
Qed.

Lemma sortByScore_perm (l : list Task) : Permutation (sortByScore l) l.
Proof.
  induction l as [|x l IH]; simpl; [apply perm_nil|].
  apply perm_trans with (x :: sortByScore l);
    [apply insertByScore_perm | apply perm_skip, IH].
Qed.

Lemma insertByScore_sorted (x : Task) (l : list Task) :
  StronglySorted scoreNotBelow l -> StronglySorted scoreNotBelow (insertByScore x l).
Proof.
  induction l as [|y l IH]; simpl; intros S.
  - constructor; constructor.
  - inversion S as [|? ? Sl Fy]; subst.
    destruct (Qle_bool (priority_score y) (priority_score x)) eqn:E.
    + apply Qle_bool_iff in E. constructor; [exact S|].
      constructor; [exact E|].
      eapply Forall_impl; [|exact Fy].
      intros z Hz. unfold scoreNotBelow in *. eapply Qle_trans; eassumption.
    + apply ScorerFacts.Qle_bool_false in E.
      constructor; [apply IH; exact Sl|].
      eapply Permutation_Forall;
        [apply Permutation_sym, insertByScore_perm|].
      constructor; [apply Qlt_le_weak; exact E | exact Fy].
Qed.

Lemma sortByScore_sorted (l : list Task) :
  StronglySorted scoreNotBelow (sortByScore l).
Proof.
  induction l as [|x l IH]; simpl; [constructor|].
  apply insertByScore_sorted, IH.
Qed.

(** Inserting does not disturb the order among tasks of one score. *)
Lemma insertByScore_stable (q : Q) (x : Task) (l : list Task) :
  filter (hasScore q) (insertByScore x l) = filter (hasScore q) (x :: l).
Proof.
  induction l as [|y l IH]; [reflexivity|].
  cbn [insertByScore].
  destruct (Qle_bool (priority_score y) (priority_score x)) eqn:E; [reflexivity|].
  apply ScorerFacts.Qle_bool_false in E.
  cbn [filter] in *. rewrite IH.
  destruct (hasScore q x) eqn:X; [|reflexivity].
  destruct (hasScore q y) eqn:Y; [|reflexivity].
  unfold hasScore in *. apply Qeq_bool_iff in X, Y.
  rewrite X, Y in E. destruct (Qlt_irrefl _ E).
Qed.

Lemma sortByScore_stable (q : Q) (l : list Task) :
  filter (hasScore q) (sortByScore l) = filter (hasScore q) l.
Proof.
  induction l as [|x l IH]; [reflexivity|].
  cbn [sortByScore fold_right]. fold (sortByScore l).
  rewrite insertByScore_stable. cbn [filter]. rewrite IH. reflexivity.
Qed.

Lemma status_split (l : list Task) :
  (List.length (filter (hasStatus todo) l)
   + List.length (filter (hasStatus in_progress) l)
   + List.length (filter (hasStatus completed) l))%nat
  = List.length l.
Proof.
  induction l as [|t l IH]; [reflexivity|].
  unfold hasStatus in *. cbn [filter].
  destruct (status t); cbn [status_eqb List.length]; lia.
Qed.

End TabFacts.

(** A tab of the task manager shows exactly the tasks of its status, each
    as often as the list has it, with higher priority scores first; tasks
    with the same score keep the order they have in the list. *)
Theorem tab_lists_its_status_by_score
        (state : TaskContext.TaskState) (wanted : TaskContext.Status) (q : Q) :
  Permutation (TaskManagerTabs.getTasksByStatus state wanted)
              (filter (More.hasStatus wanted) (TaskContext.tasks state))
  /\ StronglySorted More.scoreNotBelow
       (TaskManagerTabs.getTasksByStatus state wanted)
  /\ filter (More.hasScore q) (TaskManagerTabs.getTasksByStatus state wanted)
     = filter (More.hasScore q)
         (filter (More.hasStatus wanted) (TaskContext.tasks state)).
Proof.
  unfold TaskManagerTabs.getTasksByStatus. split; [apply TabFacts.sortByScore_perm|].
  split; [apply TabFacts.sortByScore_sorted | apply TabFacts.sortByScore_stable].
Qed.

(** Every task is in exactly one of the three tabs: their sizes add up to
    the number of tasks. *)
Theorem tabs_partition_the_tasks (state : TaskContext.TaskState) :
  (List.length (TaskManagerTabs.getTasksByStatus state TaskContext.todo)
   + List.length (TaskManagerTabs.getTasksByStatus state TaskContext.in_progress)
   + List.length (TaskManagerTabs.getTasksByStatus state TaskContext.completed))%nat
  = List.length (TaskContext.tasks state).
Proof.
  unfold TaskManagerTabs.getTasksByStatus.
  rewrite !(Permutation_length (TabFacts.sortByScore_perm _)).
  apply TabFacts.status_split.
Qed.

(** ** The analytics counters *)

Module AnalyticsFacts.
Import TaskContext Analytics.

Lemma priority_split (l : list Task) :
  (List.length (filter (fun t => priority_eqb (priority t) urgent) l)
   + List.length (filter (fun t => priority_eqb (priority t) high) l)
   + List.length (filter (fun t => priority_eqb (priority t) medium) l)
   + List.length (filter (fun t => priority_eqb (priority t) low) l))%nat
  = List.length l.
Proof.
  induction l as [|t l IH]; [reflexivity|].
  cbn [filter]. destruct (priority t); cbn [priority_eqb List.length]; lia.
Qed.

Lemma overdue_excludes_completed (h : Host) (l : list Task) (k : nat) :
  (overdueFrom h k l
   + List.length (filter (fun t => status_eqb (status t) completed) l)
   <= List.length l)%nat.
Proof.
  revert k. induction l as [|t l IH]; intros k; [apply Nat.le_refl|].
  cbn [overdueFrom filter].
  destruct (deadline t) as [d|];
    [destruct (str_truthy d);
     [destruct (match Date_parse h d with
                | Some ms => (ms <? Date_now h k)%Z
                | None => false
                end)|]|];
    destruct (status t); cbn [status_eqb negb andb List.length];
    try (specialize (IH (S k)); lia); specialize (IH k); lia.
Qed.

Lemma overdue_steady (h : Host) (today : Z) (l : list Task) (k : nat) :
  (forall n, Date_now h n = today) ->
  overdueFrom h k l = List.length (filter (TaskCard.isOverdue h today) l).
Proof.
  intros C. revert k. induction l as [|t l IH]; intros k; [reflexivity|].
  cbn [overdueFrom filter]. unfold TaskCard.isOverdue at 1.
  destruct (deadline t) as [d|]; [|apply IH].
  destruct (str_truthy d); [|apply IH].
  rewrite C, (IH (S k)).
  destruct (Date_parse h d) as [ms|]; [|reflexivity].
  destruct ((ms <? today)%Z && negb (status_eqb (status t) completed));
    reflexivity.
Qed.

End AnalyticsFacts.

(** On the analytics page the four priority counts add up to the total,
    and a completed task is never counted as overdue: overdue and
    completed together never exceed the total. *)
Theorem analytics_counts_add_up
        (h : Host) (k : nat) (state : TaskContext.TaskState) :
  let stats := Analytics.taskStats h k state in
  (Analytics.urgent_tasks (Analytics.priorityBreakdown stats)
   + Analytics.high_tasks (Analytics.priorityBreakdown stats)
   + Analytics.medium_tasks (Analytics.priorityBreakdown stats)
   + Analytics.low_tasks (Analytics.priorityBreakdown stats))%nat
  = Analytics.total stats
  /\ (Analytics.overdue stats + Analytics.completed_tasks stats
      <= Analytics.total stats)%nat.
Proof.
  cbn. split; [apply AnalyticsFacts.priority_split
              | apply AnalyticsFacts.overdue_excludes_completed].
Qed.

(** While the clock stands still, the overdue count of the analytics page
    is the number of tasks whose card is marked overdue. *)
Theorem analytics_overdue_agrees_with_cards
        (h : Host) (today : Z) (k : nat) (state : TaskContext.TaskState) :
  (forall n, Date_now h n = today) ->
  Analytics.overdue (Analytics.taskStats h k state)
  = List.length (filter (TaskCard.isOverdue h today) (TaskContext.tasks state)).
Proof. intros C. apply AnalyticsFacts.overdue_steady. exact C. Qed.

Lemma analytics_overdue_agrees_with_cards_witness :
  (forall n, Date_now More.still n = 1730505600000%Z)
  /\ Analytics.overdue
       (Analytics.taskStats More.still 0 (Demo.board More.scoredTasks))
     = 3%nat.
Proof.
  assert (C : forall n, Date_now More.still n = 1730505600000%Z)
    by (intros n; reflexivity).
  split; [exact C|].
  rewrite (analytics_overdue_agrees_with_cards More.still 1730505600000 0
             (Demo.board More.scoredTasks) C).
  reflexivity.
Defined.

(** ** The marks on a task card *)

(** For a task that is not completed and whose deadline parses to the time
    [t], the card shows "(Today)" exactly when [t] lies in the 24 hours up
    to now and "(Tomorrow)" exactly when it lies in the 24 hours after
    now; and a card that shows "(Today)" for a deadline already behind the
    first clock reading shows "(Overdue)" as well. *)
Theorem card_marks_by_deadline
        (h : Host) (now1 now2 t : Z) (d : jsstring) (task : TaskContext.Task) :
  TaskContext.deadline task = Some d ->
  str_truthy d = true ->
  Date_parse h d = Some t ->
  TaskContext.status task <> TaskContext.completed ->
  (Z.abs (t - now2) < 2 ^ 53)%Z ->
  (TaskCard.marksToday h now2 task = true
   <-> (now2 - msPerDay < t <= now2)%Z)
  /\ (TaskCard.marksTomorrow h now2 task = true
      <-> (now2 < t <= now2 + msPerDay)%Z)
  /\ (TaskCard.marksToday h now2 task = true -> (t < now1)%Z ->
      TaskCard.marksOverdue h now1 task = true).
Proof.
  intros D T P S _.
  assert (N : negb (TaskContext.status_eqb (TaskContext.status task)
                      TaskContext.completed) = true).
  { destruct (TaskContext.status task); try reflexivity. contradiction. }
  unfold TaskCard.marksToday, TaskCard.marksTomorrow, TaskCard.marksOverdue,
    TaskCard.hasDeadline, TaskCard.daysUntilDeadline, TaskCard.isOverdue,
    TaskCard.isDay.
  rewrite D, T, P, N, !andb_true_r, !andb_true_l. unfold msPerDay.
  change (1000 * 60 * 60 * 24)%Z with 86400000%Z.
  change (24 * 60 * 60 * 1000)%Z with 86400000%Z.
  rewrite !Z.eqb_eq, Z.ltb_lt.
  pose proof (Z.div_mod (now2 - t) 86400000 ltac:(discriminate)) as E.
  pose proof (Z.mod_pos_bound (now2 - t) 86400000 ltac:(reflexivity)) as B.
  repeat split; intros; lia.
Qed.

Lemma card_marks_by_deadline_witness :
  TaskContext.deadline Demo.lateTask = Some (lit "2024-10-01")
  /\ Date_parse Demo.calendar (lit "2024-10-01") = Some 1727740800000%Z
  /\ (TaskCard.marksToday Demo.calendar 1727780000000 Demo.lateTask = true
      <-> (1727780000000 - msPerDay < 1727740800000 <= 1727780000000)%Z).
Proof.
  split; [reflexivity|]. split; [reflexivity|].
  apply (card_marks_by_deadline Demo.calendar 1727780000000 1727780000000
           1727740800000 (lit "2024-10-01") Demo.lateTask);
    try reflexivity; discriminate.
Defined.

(** ** Requests *)

Module ApiFacts.
Import More HandlerFacts.

Lemma exchange_ok (o : FetchOutcome) (v : value) :
  exchange o = Ok v
  <-> exists code, o = Resolved {| ok := true; status := code; json := Some v |}.
Proof.
  split.
  - destruct o as [e | [[|] code [b|]]]; cbn; intros E; try discriminate E.
    injection E as ->. eauto.
  - intros [code ->]. reflexivity.
Qed.

Lemma no_truthy_filter (entries : list (jsstring * option jsstring)) :
  (forall k v, In (k, v) entries -> v = None \/ v = Some []) ->
  flat_map (fun '(key, value) =>
              match value with
              | Some v => if str_truthy v then [(key, v)] else []
              | None => []
              end) entries = [].
Proof.
  induction entries as [|[k v] l IH]; intros F; [reflexivity|].
  cbn [flat_map]. rewrite IH by (intros k' v' I; apply (F k' v'); right; exact I).
  destruct (F k v (or_introl eq_refl)) as [-> | ->]; reflexivity.
Qed.

End ApiFacts.

(** A call of [request] makes exactly one fetch, to the base URL followed
    by the endpoint, and leaves the caller's state alone.  It returns a
    value exactly when the answer is 2xx with a JSON body, and then that
    body; in every other case, a refusal that comes with a JSON body
    included, it logs the exception once and throws it. *)
Theorem request_makes_one_attempt
        (St : Type) (endpoint : jsstring) (options : ApiService.RequestInit)
        (h : Host) (w : World St) :
  let out := ApiService.request endpoint options h w in
  let req := More.requestOf h endpoint options in
  comp (snd out) = comp w
  /\ reads (snd out) = reads w
  /\ (exists rest,
        log (snd out) = log w ++ EFetch req :: rest
        /\ (forall x, ~ In (EFetch x) rest)
        /\ (forall e, fst out = Throw e ->
                       rest = [EConsoleError (lit "API request failed:") e])
        /\ (forall v, fst out = Ok v -> rest = []))
  /\ (forall v, fst out = Ok v
                <-> exists code,
                    fetch h req
                    = Resolved {| ok := true; status := code; json := Some v |}).
Proof.
  cbn zeta. rewrite HandlerFacts.request_run. cbn zeta.
  fold (More.requestOf h endpoint options).
  split; [destruct (exchange _); reflexivity|].
  split; [destruct (exchange _); reflexivity|].
  split.
  - destruct (exchange (fetch h (More.requestOf h endpoint options))) as [v|e];
      cbn [fst snd log].
    + exists []. repeat split; try (intros; discriminate).
      intros x [].
    + exists [EConsoleError (lit "API request failed:") e].
      rewrite <- app_assoc. repeat split.
      * intros x [E | []]. discriminate E.
      * intros e' E. injection E as ->. reflexivity.
      * intros v E. discriminate E.
  - intros v. rewrite <- ApiFacts.exchange_ok.
    destruct (exchange _); cbn [fst]; reflexivity.
Qed.

(** When no filter is given, or every filter given is absent or empty,
    and the browser serialises no parameters to the empty string,
    [getTasks] asks for the bare collection: the URL ends in [/tasks/]
    with no question mark. *)
Theorem getTasks_without_filters_asks_bare_collection
        (h : Host) (params : option (list (jsstring * option jsstring))) :
  URLSearchParams_toString h [] = [] ->
  More.noFilter params ->
  exists rest,
    log (snd (run (ApiService.getTasks params) h tt))
    = EFetch {| url := ApiService.API_BASE_URL h ++ lit "/tasks/";
                method := None; body := None |} :: rest.
Proof.
  intros U F.
  assert (E : match params with
              | Some entries =>
                  flat_map (fun '(key, value) =>
                              match value with
                              | Some v => if str_truthy v then [(key, v)] else []
                              | None => []
                              end) entries
              | None => []
              end = []).
  { destruct params as [entries|]; [|reflexivity].
    apply ApiFacts.no_truthy_filter. exact F. }
  unfold run, ApiService.getTasks.
  unfold bind at 1. unfold host at 1. cbn zeta. rewrite E, U.
  cbn [str_truthy]. rewrite app_nil_r.
  unfold bind at 1. rewrite HandlerFacts.request_run. cbn zeta.
  cbn [ApiService.noOptions ApiService.init_method ApiService.init_body log app].
  destruct (exchange _) as [v|e].
  - rewrite HandlerFacts.unwrap_page. cbn [snd log]. eauto.
  - cbn [snd log app]. eauto.
Qed.

Lemma getTasks_without_filters_asks_bare_collection_witness :
  URLSearchParams_toString Demo.paging [] = []
  /\ More.noFilter (Some [(lit "status", None); (lit "search", Some [])])
  /\ exists rest,
       log (snd (run (ApiService.getTasks
                        (Some [(lit "status", None); (lit "search", Some [])]))
                   Demo.paging tt))
       = EFetch {| url := lit "http://localhost:8000/api/tasks/";
                   method := None; body := None |} :: rest.
Proof.
  assert (F : More.noFilter (Some [(lit "status", None); (lit "search", Some [])])).
  { intros k v [E | [E | []]]; injection E as _ <-; auto. }
  split; [reflexivity|]. split; [exact F|].
  apply (getTasks_without_filters_asks_bare_collection Demo.paging
           (Some [(lit "status", None); (lit "search", Some [])]) eq_refl F).
Defined.

(** ** The provider's dispatch *)

Module ProviderFacts.
Import TaskContext More HandlerFacts.

Lemma enhancedDispatch_run (ofTask : Task -> value) (asTask : value -> Task)
      (h : Host) (s : TaskState) (action : TaskAction) :
  run (TaskProvider.enhancedDispatch ofTask asTask action) h s
  = match serverRequest h ofTask action with
    | None =>
        (Ok tt, {| comp := taskReducer s action; log := []; reads := 0 |})
    | Some req =>
        match exchange (fetch h req) with
        | Ok answer =>
            (Ok tt, {| comp := taskReducer s (confirmed asTask action answer);
                       log := [EFetch req]; reads := 0 |})
        | Throw e =>
            (Ok tt,
             {| comp := s;
                log := [EFetch req;
                        EConsoleError (lit "API request failed:") e;
                        EConsoleError
                          (match action with
                           | UPDATE_TASK _ => lit "Failed to update task:"
                           | _ => lit "Failed to delete task:"
                           end) e];
                reads := 0 |})
        end
    end.
Proof.
  destruct action; try reflexivity;
    unfold run, TaskProvider.enhancedDispatch, TaskProvider.dispatch,
      ApiService.updateTask, ApiService.deleteTask, tryCatch;
    unfold bind at 1; rewrite request_run; cbn zeta;
    cbn [serverRequest ApiService.init_method ApiService.init_body log app];
    destruct (exchange _); reflexivity.
Qed.

Lemma handleDelete_run (ofTask : Task -> value) (asTask : value -> Task)
      (h : Host) (s : TaskState) (task : Task) :
  run (TaskCard.handleDelete ofTask asTask task) h s
  = let req := {| url := ApiService.API_BASE_URL h
                         ++ lit "/tasks/" ++ id task ++ lit "/";
                  method := Some (lit "DELETE"); body := None |} in
    match exchange (fetch h req) with
    | Ok _ =>
        (Ok tt, {| comp := taskReducer s (DELETE_TASK (id task));
                   log := [EFetch req; EToast taskDeleted]; reads := 0 |})
    | Throw e =>
        (Ok tt,
         {| comp := s;
            log := [EFetch req;
                    EConsoleError (lit "API request failed:") e;
                    EConsoleError (lit "Failed to delete task:") e;
                    EToast taskDeleted];
            reads := 0 |})
    end.
Proof.
  unfold TaskCard.handleDelete, run.
  unfold tryCatch at 1. unfold bind at 1.
  pose proof (enhancedDispatch_run ofTask asTask h s (DELETE_TASK (id task))) as R.
  unfold run in R. rewrite R. clear R. cbn [serverRequest]. cbn zeta.
  destruct (exchange _); reflexivity.
Qed.

End ProviderFacts.

(** An action other than UPDATE_TASK and DELETE_TASK goes straight to the
    reducer: no request is made and nothing is logged. *)
Theorem dispatch_without_server_is_the_reducer
        (ofTask : TaskContext.Task -> value) (asTask : value -> TaskContext.Task)
        (h : Host) (s : TaskContext.TaskState) (action : TaskContext.TaskAction) :
  More.serverRequest h ofTask action = None ->
  run (TaskProvider.enhancedDispatch ofTask asTask action) h s
  = (Ok tt, {| comp := TaskContext.taskReducer s action; log := []; reads := 0 |}).
Proof. intros N. rewrite ProviderFacts.enhancedDispatch_run, N. reflexivity. Qed.

Lemma dispatch_without_server_is_the_reducer_witness :
  More.serverRequest More.refusing More.idOnly (TaskContext.ADD_TASK Demo.lateTask)
  = None
  /\ run (TaskProvider.enhancedDispatch More.idOnly More.asLateTask
            (TaskContext.ADD_TASK Demo.lateTask))
         More.refusing (Demo.board [Demo.doneTask])
     = (Ok tt, {| comp := Demo.board [Demo.doneTask; Demo.lateTask];
                  log := []; reads := 0 |}).
Proof.
  split; [reflexivity|].
  apply (dispatch_without_server_is_the_reducer More.idOnly More.asLateTask
           More.refusing (Demo.board [Demo.doneTask])
           (TaskContext.ADD_TASK Demo.lateTask)).
  reflexivity.
Defined.

(** When the exchange for an UPDATE_TASK or a DELETE_TASK fails, a 2xx
    answer without a JSON body included, the provider's state stays as it
    is: the dispatch logs the exception and ends normally. *)
Theorem dispatch_refused_by_server_keeps_state
        (ofTask : TaskContext.Task -> value) (asTask : value -> TaskContext.Task)
        (h : Host) (s : TaskContext.TaskState) (action : TaskContext.TaskAction)
        (req : Request) (e : exn) :
  More.serverRequest h ofTask action = Some req ->
  exchange (fetch h req) = Throw e ->
  exists label,
    run (TaskProvider.enhancedDispatch ofTask asTask action) h s
    = (Ok tt,
       {| comp := s;
          log := [EFetch req;
                  EConsoleError (lit "API request failed:") e;
                  EConsoleError label e];
          reads := 0 |}).
Proof.
  intros R X. rewrite ProviderFacts.enhancedDispatch_run, R, X. eauto.
Qed.

Lemma dispatch_refused_by_server_keeps_state_witness :
  More.serverRequest More.noContent More.idOnly (TaskContext.DELETE_TASK (lit "a"))
  = Some {| url := lit "http://localhost:8000/api/tasks/a/";
            method := Some (lit "DELETE"); body := None |}
  /\ exchange (fetch More.noContent
                 {| url := lit "http://localhost:8000/api/tasks/a/";
                    method := Some (lit "DELETE"); body := None |})
     = Throw JsonSyntaxError
  /\ exists label,
       run (TaskProvider.enhancedDispatch More.idOnly More.asLateTask
              (TaskContext.DELETE_TASK (lit "a")))
           More.noContent (Demo.board [Demo.lateTask])
       = (Ok tt,
          {| comp := Demo.board [Demo.lateTask];
             log := [EFetch {| url := lit "http://localhost:8000/api/tasks/a/";
                               method := Some (lit "DELETE"); body := None |};
                     EConsoleError (lit "API request failed:") JsonSyntaxError;
                     EConsoleError label JsonSyntaxError];
             reads := 0 |}).
Proof.
  split; [reflexivity|]. split; [reflexivity|].
  apply (dispatch_refused_by_server_keeps_state More.idOnly More.asLateTask
           More.noContent (Demo.board [Demo.lateTask])
           (TaskContext.DELETE_TASK (lit "a"))); reflexivity.
Defined.

(** When the exchange succeeds, the reducer runs once and no earlier than
    the answer: a DELETE_TASK removes the task, and an UPDATE_TASK puts
    the task the server answered with, not the one that was sent, into
    the list. *)
Theorem dispatch_confirmed_by_server_reaches_reducer
        (ofTask : TaskContext.Task -> value) (asTask : value -> TaskContext.Task)
        (h : Host) (s : TaskContext.TaskState) (action : TaskContext.TaskAction)
        (req : Request) (answer : value) :
  More.serverRequest h ofTask action = Some req ->
  exchange (fetch h req) = Ok answer ->
  run (TaskProvider.enhancedDispatch ofTask asTask action) h s
  = (Ok tt,
     {| comp := TaskContext.taskReducer s (More.confirmed asTask action answer);
        log := [EFetch req]; reads := 0 |})
  /\ (forall sent, action = TaskContext.UPDATE_TASK sent ->
        More.confirmed asTask action answer
        = TaskContext.UPDATE_TASK (asTask answer))
  /\ (forall gone, action = TaskContext.DELETE_TASK gone ->
        More.confirmed asTask action answer = TaskContext.DELETE_TASK gone).
Proof.
  intros R X. rewrite ProviderFacts.enhancedDispatch_run, R, X.
  split; [reflexivity|]. split; intros x ->; reflexivity.
Qed.

Lemma dispatch_confirmed_by_server_reaches_reducer_witness :
  More.serverRequest Demo.paging More.idOnly (TaskContext.UPDATE_TASK Demo.lateTask)
  = Some {| url := lit "http://localhost:8000/api/tasks/a/";
            method := Some (lit "PUT");
            body := Some (VObj [(lit "id", VStr (lit "a"))]) |}
  /\ exchange (fetch Demo.paging
                 {| url := lit "http://localhost:8000/api/tasks/a/";
                    method := Some (lit "PUT");
                    body := Some (VObj [(lit "id", VStr (lit "a"))]) |})
     = Ok Demo.page
  /\ comp (snd (run (TaskProvider.enhancedDispatch More.idOnly More.asLateTask
                       (TaskContext.UPDATE_TASK Demo.lateTask))
                    Demo.paging (Demo.board [Demo.lateTask])))
     = Demo.board [Demo.lateTaskFlagged].
Proof.
  split; [reflexivity|]. split; [reflexivity|].
  destruct (dispatch_confirmed_by_server_reaches_reducer
              More.idOnly More.asLateTask Demo.paging (Demo.board [Demo.lateTask])
              (TaskContext.UPDATE_TASK Demo.lateTask)
              {| url := lit "http://localhost:8000/api/tasks/a/";
                 method := Some (lit "PUT");
                 body := Some (VObj [(lit "id", VStr (lit "a"))]) |}
              Demo.page eq_refl eq_refl) as [R _].
  rewrite R. reflexivity.
Defined.

(** Deleting from a card always ends with the toast "Task Deleted" and
    never with "Delete Failed", whatever the server did: when the exchange
    failed, the task is still in the list and the toast says otherwise. *)
Theorem card_delete_always_reports_success
        (ofTask : TaskContext.Task -> value) (asTask : value -> TaskContext.Task)
        (h : Host) (s : TaskContext.TaskState) (task : TaskContext.Task) :
  let out := run (TaskCard.handleDelete ofTask asTask task) h s in
  fst out = Ok tt
  /\ In (EToast More.taskDeleted) (log (snd out))
  /\ ~ In (EToast More.deleteFailed) (log (snd out))
  /\ (forall req e,
        More.serverRequest h ofTask
          (TaskContext.DELETE_TASK (TaskContext.id task)) = Some req ->
        exchange (fetch h req) = Throw e ->
        comp (snd out) = s).
Proof.
  cbn zeta. rewrite ProviderFacts.handleDelete_run. cbn zeta.
  unfold More.serverRequest.
  destruct (exchange _) as [v|e] eqn:X; cbn [fst snd log comp].
  - repeat split; auto.
    + right. left. reflexivity.
    + intros [E | [E | []]]; discriminate E.
    + intros req e R Y. injection R as E. subst req.
      cbv in X, Y. rewrite X in Y. discriminate Y.
  - repeat split; auto.
    + right. right. right. left. reflexivity.
    + intros [E | [E | [E | [E | []]]]]; discriminate E.
Qed.

Lemma card_delete_always_reports_success_witness :
  exchange (fetch More.noContent
              {| url := lit "http://localhost:8000/api/tasks/a/";
                 method := Some (lit "DELETE"); body := None |})
  = Throw JsonSyntaxError
  /\ In (EToast More.taskDeleted)
        (log (snd (run (TaskCard.handleDelete More.idOnly More.asLateTask
                          Demo.lateTask)
                       More.noContent (Demo.board [Demo.lateTask]))))
  /\ comp (snd (run (TaskCard.handleDelete More.idOnly More.asLateTask
                       Demo.lateTask)
                    More.noContent (Demo.board [Demo.lateTask])))
     = Demo.board [Demo.lateTask].
Proof.
  split; [reflexivity|].
  destruct (card_delete_always_reports_success More.idOnly More.asLateTask
              More.noContent (Demo.board [Demo.lateTask]) Demo.lateTask)
    as (_ & T & _ & K).
  split; [exact T|].
  apply (K {| url := lit "http://localhost:8000/api/tasks/a/";
              method := Some (lit "DELETE"); body := None |}
           JsonSyntaxError); reflexivity.
Defined.

(** ** More on the two creation flows *)

Module SubmitFacts.
Import Props More StringFacts HandlerFacts.

Ltac exec_flow B :=
  unfold resultOfSubmit, afterSubmit, heldSuggestions, busy in *;
  exec_submit B.

Lemma submit_ends_idle (h : Host) (f : Flow) :
  blank (title (formOf f)) = false ->
  resultOfSubmit h f = Ok tt /\ busy (afterSubmit h f) = false.
Proof.
  intros B.
  destruct f as [[scf ic igs [t d c dl] ai] | [il igs [t d c dl] ai]];
    reduce; exec_flow B; split; reflexivity.
Qed.

(** Either nothing was added and the form is as it was, or the server's
    answer to the creation request was added, once, and the form is empty. *)
Lemma submit_outcome (h : Host) (f : Flow) :
  blank (title (formOf f)) = false ->
  (noTaskAdded (eventsOf h f)
   /\ formOf (afterSubmit h f) = formOf f
   /\ heldSuggestions (afterSubmit h f) = heldSuggestions f)
  \/ (exists v creq td,
        exchange (fetch h creq) = Ok v
        /\ isCreateRequest h creq td
        /\ In (EFetch creq) (eventsOf h f)
        /\ (forall v', In (EDispatchAddTask v') (eventsOf h f) <-> v' = v)
        /\ formOf (afterSubmit h f) = emptyForm
        /\ heldSuggestions (afterSubmit h f) = VNull
        /\ dispatched (eventsOf h f) = [v]).
Proof.
  intros B.
  destruct f as [[scf ic igs [t d c dl] ai] | [il igs [t d c dl] ai]];
    reduce; exec_flow B;
    first
      [ left; split; [|split; reflexivity];
        intros v I; cbn [In] in I;
        repeat (destruct I as [I | I]; [discriminate I|]); exact I
      | right; do 3 eexists;
        split; [eassumption|];
        split; [repeat split|];
        split; [cbn [In]; right; left; reflexivity|];
        split; [|split; [reflexivity | split; reflexivity]];
        intros v'; cbn [In]; split;
        [ intros I;
          repeat (destruct I as [I | I];
                  [first [discriminate I | injection I as <-; reflexivity]|]);
          destruct I
        | intros ->; right; right; left; reflexivity ] ].
Qed.


End SubmitFacts.

Module SubmitFacts2.
Import Props More StringFacts HandlerFacts.



Lemma formOf_afterApply (h : Host) (f : Flow) (field : SuggestionField)
      (v : jsstring) :
  formOf (afterApply h f field v) = withField (formOf f) field v.
Proof. destruct f; reflexivity. Qed.


Lemma manager_suggestions_blank (h : Host) (s : TaskManager.State) :
  blank (title (TaskManager.formData s)) = true ->
  run TaskManager.handleGetSuggestions h s
  = (Ok tt, {| comp := s; log := [EToast suggestionsTitleRequired]; reads := 0 |}).
Proof.
  intros B. unfold TaskManager.handleGetSuggestions. unfold_eff. cbn [comp].
  rewrite (trim_blank _ B). reflexivity.
Qed.

End SubmitFacts2.

(** A submission never throws, whatever the host does, and it never
    leaves the busy flag set: with a blank title the flag is not touched,
    in every other run it is cleared at the end. *)
Theorem submission_never_throws_and_ends_idle (h : Host) (f : Flow) :
  More.resultOfSubmit h f = Ok tt
  /\ More.busy (More.afterSubmit h f)
     = (if blank (title (formOf f)) then More.busy f else false).
Proof.
  destruct (blank (title (formOf f))) eqn:B.
  - unfold More.resultOfSubmit, More.afterSubmit.
    rewrite (HandlerFacts.submit_blank_title h f B). split; reflexivity.
  - apply SubmitFacts.submit_ends_idle. exact B.
Qed.

(** A submission that adds no task leaves the form and the suggestions
    exactly as the user had them, ready for another try. *)
Theorem failed_submission_keeps_the_form (h : Host) (f : Flow) :
  noTaskAdded (eventsOf h f) ->
  formOf (More.afterSubmit h f) = formOf f
  /\ More.heldSuggestions (More.afterSubmit h f) = More.heldSuggestions f.
Proof.
  intros N. destruct (blank (title (formOf f))) eqn:B.
  - unfold More.afterSubmit. rewrite (HandlerFacts.submit_blank_title h f B).
    split; reflexivity.
  - destruct (SubmitFacts.submit_outcome h f B)
      as [(_ & F & S) | (v & creq & td & _ & _ & _ & A & _)]; [auto|].
    destruct (N v). apply A. reflexivity.
Qed.

Lemma failed_submission_keeps_the_form_witness :
  noTaskAdded (eventsOf Demo.offline (ViaQuickAdd (Demo.quick Demo.rentForm)))
  /\ formOf (More.afterSubmit Demo.offline (ViaQuickAdd (Demo.quick Demo.rentForm)))
     = Demo.rentForm.
Proof.
  assert (N : noTaskAdded
                (eventsOf Demo.offline (ViaQuickAdd (Demo.quick Demo.rentForm)))).
  { intros v I. vm_compute in I.
    repeat (destruct I as [I | I]; [discriminate I|]). exact I. }
  split; [exact N|].
  apply (failed_submission_keeps_the_form Demo.offline
           (ViaQuickAdd (Demo.quick Demo.rentForm)) N).
Defined.

(** A task is added to the list only as the server's answer to a creation
    request of that same submission, and exactly one is: the submission
    dispatches once.  The form and the suggestions are then emptied. *)
Theorem added_task_is_the_servers_answer (h : Host) (f : Flow) (v : value) :
  In (EDispatchAddTask v) (eventsOf h f) ->
  (exists creq td,
      In (EFetch creq) (eventsOf h f)
      /\ isCreateRequest h creq td
      /\ exchange (fetch h creq) = Ok v)
  /\ (forall v', In (EDispatchAddTask v') (eventsOf h f) -> v' = v)
  /\ More.dispatched (eventsOf h f) = [v]
  /\ formOf (More.afterSubmit h f) = emptyForm
  /\ More.heldSuggestions (More.afterSubmit h f) = VNull.
Proof.
  intros I. destruct (blank (title (formOf f))) eqn:B.
  - unfold eventsOf in I. rewrite (HandlerFacts.submit_blank_title h f B) in I.
    destruct I as [E | []]. discriminate E.
  - destruct (SubmitFacts.submit_outcome h f B)
      as [(N & _) | (w & creq & td & X & R & C & A & F & S & D)].
    + destruct (N v I).
    + apply A in I. subst w. split; [eauto|]. split; [|auto].
      intros v' I'. apply A. exact I'.
Qed.

Lemma added_task_is_the_servers_answer_witness :
  In (EDispatchAddTask Demo.createdTask)
     (eventsOf Demo.online (ViaTaskManager (Demo.manager Demo.rentForm)))
  /\ More.dispatched
       (eventsOf Demo.online (ViaTaskManager (Demo.manager Demo.rentForm)))
     = [Demo.createdTask]
  /\ formOf (More.afterSubmit Demo.online
               (ViaTaskManager (Demo.manager Demo.rentForm))) = emptyForm.
Proof.
  assert (I : In (EDispatchAddTask Demo.createdTask)
                 (eventsOf Demo.online
                    (ViaTaskManager (Demo.manager Demo.rentForm)))).
  { vm_compute. right. right. left. reflexivity. }
  split; [exact I|].
  destruct (added_task_is_the_servers_answer Demo.online
              (ViaTaskManager (Demo.manager Demo.rentForm)) Demo.createdTask I)
    as (_ & _ & D & F & _).
  split; [exact D | exact F].
Defined.





(** After a suggested category is applied to the form, a submission asks
    for the priority of the task in that category instead of "Personal". *)
Theorem applied_category_is_scored
        (h : Host) (f : Flow) (suggested : jsstring) :
  suggested <> [] ->
  blank (title (formOf f)) = false ->
  (deadline (formOf f) <> [] \/ validTime (Date_now h 0 + sevenDays) = true) ->
  exists req td rest,
    eventsOf h (More.afterApply h f category_field suggested) = EFetch req :: rest
    /\ isScoringRequest h req td
    /\ lookup (lit "category_id") td = VStr suggested
    /\ lookup (lit "title") td = VStr (trim (title (formOf f))).
Proof.
  intros S B V.
  destruct (HandlerFacts.submit_first_scores h
              (More.afterApply h f category_field suggested))
    as (req & rest & E & R).
  - rewrite SubmitFacts2.formOf_afterApply. exact B.
  - rewrite SubmitFacts2.formOf_afterApply. exact V.
  - rewrite SubmitFacts2.formOf_afterApply in R. cbn [withField category title] in R.
    exists req. eexists. exists rest.
    split; [exact E|]. split; [exact R|].
    destruct suggested; [contradiction|]. split; reflexivity.
Qed.

Lemma applied_category_is_scored_witness :
  lit "Home" <> []
  /\ blank (title (formOf (ViaTaskManager (Demo.manager Demo.rentForm)))) = false
  /\ validTime (Date_now Demo.online 0 + sevenDays) = true
  /\ exists req td rest,
       eventsOf Demo.online
         (More.afterApply Demo.online (ViaTaskManager (Demo.manager Demo.rentForm))
            category_field (lit "Home"))
       = EFetch req :: rest
       /\ isScoringRequest Demo.online req td
       /\ lookup (lit "category_id") td = VStr (lit "Home")
       /\ lookup (lit "title") td = VStr (lit "Pay rent").
Proof.
  split; [discriminate|]. split; [reflexivity|]. split; [reflexivity|].
  apply (applied_category_is_scored Demo.online
           (ViaTaskManager (Demo.manager Demo.rentForm)) (lit "Home"));
    [discriminate | reflexivity | right; reflexivity].
Defined.

(** In the task manager, suggestions are not asked for while the title is
    blank: the handler shows its "Title Required" toast and does nothing
    else. *)
Theorem blank_title_asks_for_no_suggestions (h : Host) (s : TaskManager.State) :
  blank (title (TaskManager.formData s)) = true ->
  run TaskManager.handleGetSuggestions h s
  = (Ok tt, {| comp := s; log := [EToast More.suggestionsTitleRequired];
               reads := 0 |}).
Proof. apply SubmitFacts2.manager_suggestions_blank. Qed.

Lemma blank_title_asks_for_no_suggestions_witness :
  blank (title (TaskManager.formData (Demo.manager Demo.blankForm))) = true
  /\ run TaskManager.handleGetSuggestions Demo.online (Demo.manager Demo.blankForm)
     = (Ok tt, {| comp := Demo.manager Demo.blankForm;
                  log := [EToast More.suggestionsTitleRequired]; reads := 0 |}).
Proof.
  split; [reflexivity|].
  apply (blank_title_asks_for_no_suggestions Demo.online
           (Demo.manager Demo.blankForm)).
  reflexivity.
Defined.



(** ** The context input *)

Module ContextFacts2.
Import TaskContext Props More StringFacts HandlerFacts.

Lemma context_blank (ofTask : Task -> value) (asTask : value -> Task)
      (asContextEntry : value -> ContextEntry)
      (h : Host) (s : ContextInput.State) :
  blank (ContextInput.form_content (ContextInput.formData s)) = true ->
  run (ContextInput.handleSubmit ofTask asTask asContextEntry) h s
  = (Ok tt, {| comp := s; log := [EToast contentRequired]; reads := 0 |}).
Proof.
  intros B. unfold ContextInput.handleSubmit. unfold_eff. cbn [comp].
  rewrite (trim_blank _ B). reflexivity.
Qed.

Lemma context_run (ofTask : Task -> value) (asTask : value -> Task)
      (asContextEntry : value -> ContextEntry)
      (h : Host) (s : ContextInput.State) :
  blank (ContextInput.form_content (ContextInput.formData s)) = false ->
  run (ContextInput.handleSubmit ofTask asTask asContextEntry) h s
  = match exchange (fetch h (contextRequest h (ContextInput.formData s))) with
    | Ok answer =>
        (Ok tt,
         {| comp :=
              {| ContextInput.isProcessing := false;
                 ContextInput.formData :=
                   {| ContextInput.form_content := [];
                      ContextInput.sourceType := note |};
                 ContextInput.context :=
                   taskReducer (ContextInput.context s)
                     (ADD_CONTEXT (asContextEntry answer)) |};
            log := [EFetch (contextRequest h (ContextInput.formData s));
                    EToast (contextAdded
                              (ContextInput.sourceType (ContextInput.formData s)))];
            reads := 0 |})
    | Throw e =>
        (Ok tt,
         {| comp :=
              {| ContextInput.isProcessing := false;
                 ContextInput.formData := ContextInput.formData s;
                 ContextInput.context := ContextInput.context s |};
            log := [EFetch (contextRequest h (ContextInput.formData s));
                    EConsoleError (lit "API request failed:") e;
                    EToast contextFailed];
            reads := 0 |})
    end.
Proof.
  intros B. destruct s as [ip [c st] cx].
  cbn [ContextInput.formData ContextInput.form_content ContextInput.context
       ContextInput.sourceType] in *.
  unfold ContextInput.handleSubmit, ContextInput.dispatch,
    ContextInput.setIsProcessing, ContextInput.setFormData,
    TaskProvider.inContext, TaskProvider.enhancedDispatch, TaskProvider.dispatch,
    ApiService.createContext.
  unfold_eff.
  cbn [comp log reads ContextInput.formData ContextInput.form_content
       ContextInput.sourceType ContextInput.isProcessing ContextInput.context].
  rewrite (trim_visible _ B). cbn [negb].
  rewrite request_run. cbn zeta.
  unfold contextRequest.
  cbn [ApiService.post ApiService.init_method ApiService.init_body
       ContextInput.form_content ContextInput.sourceType comp log reads app].
  destruct (exchange _); reflexivity.
Qed.

End ContextFacts2.

(** Context whose text is empty or whitespace-only is not sent: the
    handler shows "Content Required" and leaves everything as it is. *)
Theorem blank_context_is_rejected
        (ofTask : TaskContext.Task -> value) (asTask : value -> TaskContext.Task)
        (asContextEntry : value -> TaskContext.ContextEntry)
        (h : Host) (s : ContextInput.State) :
  blank (ContextInput.form_content (ContextInput.formData s)) = true ->
  run (ContextInput.handleSubmit ofTask asTask asContextEntry) h s
  = (Ok tt, {| comp := s; log := [EToast More.contentRequired]; reads := 0 |}).
Proof. apply ContextFacts2.context_blank. Qed.

Lemma blank_context_is_rejected_witness :
  blank (ContextInput.form_content
           (ContextInput.formData (More.typing More.blankNote))) = true
  /\ run (ContextInput.handleSubmit More.idOnly More.asLateTask More.asEntry)
         Demo.online (More.typing More.blankNote)
     = (Ok tt, {| comp := More.typing More.blankNote;
                  log := [EToast More.contentRequired]; reads := 0 |}).
Proof.
  split; [reflexivity|].
  apply (blank_context_is_rejected More.idOnly More.asLateTask More.asEntry
           Demo.online (More.typing More.blankNote)).
  reflexivity.
Defined.

(** Context with visible text is sent once, trimmed, with its source
    type.  When the exchange succeeds the entry the server answered with
    goes to the end of the context list, the tasks and categories stay as
    they are, and the form is emptied. *)
Theorem accepted_context_is_appended
        (ofTask : TaskContext.Task -> value) (asTask : value -> TaskContext.Task)
        (asContextEntry : value -> TaskContext.ContextEntry)
        (h : Host) (s : ContextInput.State) (answer : value) :
  blank (ContextInput.form_content (ContextInput.formData s)) = false ->
  exchange (fetch h (More.contextRequest h (ContextInput.formData s))) = Ok answer ->
  let out := run (ContextInput.handleSubmit ofTask asTask asContextEntry) h s in
  fst out = Ok tt
  /\ log (snd out)
     = [EFetch (More.contextRequest h (ContextInput.formData s));
        EToast (More.contextAdded
                  (ContextInput.sourceType (ContextInput.formData s)))]
  /\ TaskContext.contexts (ContextInput.context (comp (snd out)))
     = TaskContext.contexts (ContextInput.context s) ++ [asContextEntry answer]
  /\ TaskContext.tasks (ContextInput.context (comp (snd out)))
     = TaskContext.tasks (ContextInput.context s)
  /\ TaskContext.categories (ContextInput.context (comp (snd out)))
     = TaskContext.categories (ContextInput.context s)
  /\ ContextInput.formData (comp (snd out))
     = {| ContextInput.form_content := [];
          ContextInput.sourceType := TaskContext.note |}
  /\ ContextInput.isProcessing (comp (snd out)) = false.
Proof.
  intros B X. cbn zeta.
  rewrite (ContextFacts2.context_run ofTask asTask asContextEntry h s B), X.
  repeat split.
Qed.

Lemma accepted_context_is_appended_witness :
  blank (ContextInput.form_content
           (ContextInput.formData (More.typing More.meetingNote))) = false
  /\ exchange (fetch More.suggesting
                 (More.contextRequest More.suggesting More.meetingNote))
     = Ok More.suggestion
  /\ fst (run (ContextInput.handleSubmit More.idOnly More.asLateTask More.asEntry)
              More.suggesting (More.typing More.meetingNote)) = Ok tt.
Proof.
  split; [reflexivity|]. split; [reflexivity|].
  apply (accepted_context_is_appended More.idOnly More.asLateTask More.asEntry
           More.suggesting (More.typing More.meetingNote) More.suggestion);
    reflexivity.
Defined.

(** When the exchange fails, the context input keeps the text and the
    source type as typed and the context list as it was, shows "Failed to
    process context", clears its busy flag and ends normally. *)
Theorem refused_context_keeps_the_text
        (ofTask : TaskContext.Task -> value) (asTask : value -> TaskContext.Task)
        (asContextEntry : value -> TaskContext.ContextEntry)
        (h : Host) (s : ContextInput.State) (e : exn) :
  blank (ContextInput.form_content (ContextInput.formData s)) = false ->
  exchange (fetch h (More.contextRequest h (ContextInput.formData s))) = Throw e ->
  run (ContextInput.handleSubmit ofTask asTask asContextEntry) h s
  = (Ok tt,
     {| comp := {| ContextInput.isProcessing := false;
                   ContextInput.formData := ContextInput.formData s;
                   ContextInput.context := ContextInput.context s |};
        log := [EFetch (More.contextRequest h (ContextInput.formData s));
                EConsoleError (lit "API request failed:") e;
                EToast More.contextFailed];
        reads := 0 |}).
Proof.
  intros B X.
  rewrite (ContextFacts2.context_run ofTask asTask asContextEntry h s B), X.
  reflexivity.
Qed.

Lemma refused_context_keeps_the_text_witness :
  blank (ContextInput.form_content
           (ContextInput.formData (More.typing More.meetingNote))) = false
  /\ exchange (fetch More.refusing
                 (More.contextRequest More.refusing More.meetingNote))
     = Throw (HttpError 400)
  /\ run (ContextInput.handleSubmit More.idOnly More.asLateTask More.asEntry)
         More.refusing (More.typing More.meetingNote)
     = (Ok tt,
        {| comp := More.typing More.meetingNote;
           log := [EFetch (More.contextRequest More.refusing More.meetingNote);
                   EConsoleError (lit "API request failed:") (HttpError 400);
                   EToast More.contextFailed];
           reads := 0 |}).
Proof.
  split; [reflexivity|]. split; [reflexivity|].
  apply (refused_context_keeps_the_text More.idOnly More.asLateTask More.asEntry
           More.refusing (More.typing More.meetingNote) (HttpError 400));
    reflexivity.
Defined.
